(** * QTimeular: the TimeularManager connection state machine

    A shallow embedding of [TimeularManager] (timeularmanager.h and its
    implementation file): the member variables become a record, every
    slot becomes a function in a small state / trace / fault monad, and
    the Qt objects the manager talks to (discovery agent, low-energy
    controller, low-energy service) are observed through the trace of
    calls made on them and of signals emitted. *)

From Stdlib Require Import ZArith NArith List String Bool Lia.
From Stdlib Require Import Strings.Byte.
Import ListNotations.
Local Open Scope Z_scope.

(** ** Qt value types used by the manager *)

(** [QBluetoothUuid]: the 128-bit value of the UUID. *)
Definition QBluetoothUuid := N.

Definition zeiOrientationService : QBluetoothUuid :=
  0xc7e70010c84711e681758c89a55d403c%N.
Definition zeiOrientationCharacteristic : QBluetoothUuid :=
  0xc7e70012c84711e681758c89a55d403c%N.
(** The client characteristic configuration descriptor, spelled out in
    [serviceStateChanged]. *)
Definition clientCharacteristicConfiguration : QBluetoothUuid :=
  0x0000290200001000800000805f9b34fb%N.

(** [QByteArray]: the bytes; [quint8]: an unsigned byte as an integer. *)
Definition QByteArray := list byte.
Definition quint8 := Z.

Definition quint8_of_byte (b : byte) : quint8 := Z.of_N (Byte.to_N b).

(** [QByteArray::fromHex("0000")] and [QByteArray::fromHex("0100")]. *)
Definition fromHex_0000 : QByteArray := [x00; x00].
Definition fromHex_0100 : QByteArray := [x01; x00].

Definition QByteArray_eqb (a b : QByteArray) : bool :=
  if list_eq_dec Byte.byte_eq_dec a b then true else false.

(** [value.constData()[i]].  Qt keeps the bytes of a [QByteArray]
    followed by a '\0' terminator, also when the array is empty, so the
    position [size()] is readable and holds 0; anything further is out
    of bounds. *)
Definition constData_at (value : QByteArray) (i : nat) : option quint8 :=
  match nth_error value i with
  | Some b => Some (quint8_of_byte b)
  | None => if Nat.eqb i (List.length value) then Some 0 else None
  end.

(** [QBluetoothDeviceInfo]: the advertised name and the core
    configuration flags. *)
Record QBluetoothDeviceInfo := mkDeviceInfo {
  name : string;
  coreConfigurations : Z
}.

(** [QBluetoothDeviceInfo::CoreConfiguration] flag values. *)
Definition UnknownCoreConfiguration : Z := 0x0.
Definition LowEnergyCoreConfiguration : Z := 0x01.
Definition BaseRateCoreConfiguration : Z := 0x02.
Definition BaseRateAndLowEnergyCoreConfiguration : Z := 0x03.

(** [QLowEnergyDescriptor]: a default-constructed descriptor is invalid
    ([None]); a valid one is identified by the service it belongs to and
    by its characteristic and descriptor handles, which is what Qt's
    [operator==] compares. *)
Record DescriptorData := mkDescriptorData {
  desc_service : nat;
  desc_charHandle : nat;
  desc_handle : nat
}.
Definition QLowEnergyDescriptor := option DescriptorData.

Definition QLowEnergyDescriptor_isValid (d : QLowEnergyDescriptor) : bool :=
  match d with Some _ => true | None => false end.

Definition DescriptorData_eqb (a b : DescriptorData) : bool :=
  Nat.eqb (desc_service a) (desc_service b)
  && Nat.eqb (desc_charHandle a) (desc_charHandle b)
  && Nat.eqb (desc_handle a) (desc_handle b).

Definition QLowEnergyDescriptor_eqb (a b : QLowEnergyDescriptor) : bool :=
  match a, b with
  | None, None => true
  | Some x, Some y => DescriptorData_eqb x y
  | _, _ => false
  end.

(** [QLowEnergyCharacteristic]: its UUID, its handle and the descriptors
    it carries; [None] stands for the invalid characteristic that a
    failed lookup returns. *)
Record CharacteristicData := mkCharacteristicData {
  char_uuid : QBluetoothUuid;
  char_handle : nat;
  char_descriptors : list (QBluetoothUuid * nat)
}.
Definition QLowEnergyCharacteristic := option CharacteristicData.

(** [c.uuid()]: the null UUID for an invalid characteristic. *)
Definition QLowEnergyCharacteristic_uuid (c : QLowEnergyCharacteristic)
  : QBluetoothUuid :=
  match c with Some d => char_uuid d | None => 0%N end.

(** The object behind a [QLowEnergyService *]. *)
Record QLowEnergyService := mkService {
  service_id : nat;
  service_uuid : QBluetoothUuid;
  service_characteristics : list CharacteristicData
}.

(** [service->characteristic(uuid)]. *)
Definition characteristic (s : QLowEnergyService) (uuid : QBluetoothUuid)
  : QLowEnergyCharacteristic :=
  find (fun c => N.eqb (char_uuid c) uuid) (service_characteristics s).

(** [ch.descriptor(uuid)] of a valid characteristic of service [s]. *)
Definition descriptor (s : QLowEnergyService) (ch : CharacteristicData)
  (uuid : QBluetoothUuid) : QLowEnergyDescriptor :=
  match find (fun d => N.eqb (fst d) uuid) (char_descriptors ch) with
  | Some d => Some (mkDescriptorData (service_id s) (char_handle ch) (snd d))
  | None => None
  end.

Inductive ServiceState :=
| InvalidService
| DiscoveryRequired
| DiscoveringServices
| ServiceDiscovered.

Inductive RemoteAddressType := PublicAddress | RandomAddress.

(** The object behind a [QLowEnergyController *]. *)
Record QLowEnergyController := mkController {
  remoteDevice : QBluetoothDeviceInfo;
  remoteAddressType : RemoteAddressType
}.

Inductive DiscoveryMethod := NoMethod | ClassicMethod | LowEnergyMethod.

(** ** The manager's own types (timeularmanager.h) *)

Inductive Status := Disconneted | Connecting | Connected.

Inductive Orientation :=
| Vertical | Face1 | Face2 | Face3 | Face4 | Face5 | Face6 | Face7 | Face8.

Definition Status_eqb (a b : Status) : bool :=
  match a, b with
  | Disconneted, Disconneted | Connecting, Connecting
  | Connected, Connected => true
  | _, _ => false
  end.

(** The enumerator values, as the integer comparisons of the code see
    them. *)
Definition Orientation_to_Z (o : Orientation) : Z :=
  match o with
  | Vertical => 0 | Face1 => 1 | Face2 => 2 | Face3 => 3 | Face4 => 4
  | Face5 => 5 | Face6 => 6 | Face7 => 7 | Face8 => 8
  end.

(** [static_cast<Orientation>(n)]: an enumerator for 0..8, no
    enumerator otherwise. *)
Definition Orientation_of_Z (n : Z) : option Orientation :=
  match n with
  | 0 => Some Vertical | 1 => Some Face1 | 2 => Some Face2
  | 3 => Some Face3 | 4 => Some Face4 | 5 => Some Face5
  | 6 => Some Face6 | 7 => Some Face7 | 8 => Some Face8
  | _ => None
  end.

(** The member variables.  The device discovery agent is created by the
    constructor and never replaced, so it is not part of the mutable
    state; [m_serviceDiscoveryAgent] and [m_localDevice] are never
    assigned. *)
Record TimeularManager := mkManager {
  m_status : Status;
  m_serviceDiscovered : bool;
  m_service : option QLowEnergyService;
  m_controller : option QLowEnergyController;
  m_notificationDesc : QLowEnergyDescriptor;
  m_orientation : Orientation
}.

(** The in-class initialisers. *)
Definition initial : TimeularManager :=
  {| m_status := Disconneted;
     m_serviceDiscovered := false;
     m_service := None;
     m_controller := None;
     m_notificationDesc := None;
     m_orientation := Vertical |}.

Definition set_status (v : Status) (t : TimeularManager) :=
  {| m_status := v;
     m_serviceDiscovered := m_serviceDiscovered t;
     m_service := m_service t;
     m_controller := m_controller t;
     m_notificationDesc := m_notificationDesc t;
     m_orientation := m_orientation t |}.

Definition set_serviceDiscovered (v : bool) (t : TimeularManager) :=
  {| m_status := m_status t;
     m_serviceDiscovered := v;
     m_service := m_service t;
     m_controller := m_controller t;
     m_notificationDesc := m_notificationDesc t;
     m_orientation := m_orientation t |}.

Definition set_service (v : option QLowEnergyService) (t : TimeularManager) :=
  {| m_status := m_status t;
     m_serviceDiscovered := m_serviceDiscovered t;
     m_service := v;
     m_controller := m_controller t;
     m_notificationDesc := m_notificationDesc t;
     m_orientation := m_orientation t |}.

Definition set_controller (v : option QLowEnergyController)
  (t : TimeularManager) :=
  {| m_status := m_status t;
     m_serviceDiscovered := m_serviceDiscovered t;
     m_service := m_service t;
     m_controller := v;
     m_notificationDesc := m_notificationDesc t;
     m_orientation := m_orientation t |}.

Definition set_notificationDesc (v : QLowEnergyDescriptor)
  (t : TimeularManager) :=
  {| m_status := m_status t;
     m_serviceDiscovered := m_serviceDiscovered t;
     m_service := m_service t;
     m_controller := m_controller t;
     m_notificationDesc := v;
     m_orientation := m_orientation t |}.

Definition set_orientation (v : Orientation) (t : TimeularManager) :=
  {| m_status := m_status t;
     m_serviceDiscovered := m_serviceDiscovered t;
     m_service := m_service t;
     m_controller := m_controller t;
     m_notificationDesc := m_notificationDesc t;
     m_orientation := v |}.

(** ** Observable effects

    Every call on a Qt collaborator, every signal emitted and every log
    line is appended to a trace, in program order. *)

Inductive Signal :=
| sig_connected | sig_error | sig_disconnected
| sig_serviceDiscovered | sig_discoveryFinished
| sig_stateChanged | sig_characteristicChanged | sig_descriptorWritten.

Inductive Slot :=
| slot_deviceConnected | slot_errorReceived | slot_deviceDisconnected
| slot_addLowEnergyService | slot_serviceScanDone
| slot_serviceStateChanged | slot_deviceDataChanged
| slot_confirmedDescriptorWrite.

Inductive Effect :=
| qDebug (msg : string)
| qDebugValue (msg : string) (v : quint8)
| qWarning (msg : string) (detail : string)
| emit_statusChanged (s : Status)
| emit_orientationChanged (o : Orientation)
| agent_start (method : DiscoveryMethod)
| createCentral (info : QBluetoothDeviceInfo)
| setRemoteAddressType (a : RemoteAddressType)
| connect (sig : Signal) (slot : Slot)
| connectToDevice
| discoverServices
| disconnectFromDevice
| createServiceObject (uuid : QBluetoothUuid)
| delete_service (s : QLowEnergyService)
| discoverDetails
| writeDescriptor (d : QLowEnergyDescriptor) (v : QByteArray).

Definition Trace := list Effect.

(** ** The monad of the slots

    A slot reads and writes the members, appends to the trace, and
    faults ([None]) where the C++ dereferences a null pointer, reads
    outside a buffer or casts a value that is no enumerator. *)

Definition M (A : Type) : Type :=
  TimeularManager -> option (A * TimeularManager * Trace).

Definition ret {A} (a : A) : M A := fun t => Some (a, t, []).

Definition bind {A B} (c : M A) (k : A -> M B) : M B :=
  fun t =>
    match c t with
    | None => None
    | Some (a, t1, tr1) =>
        match k a t1 with
        | None => None
        | Some (b, t2, tr2) => Some (b, t2, tr1 ++ tr2)
        end
    end.

Definition get : M TimeularManager := fun t => Some (t, t, []).
Definition modify (f : TimeularManager -> TimeularManager) : M unit :=
  fun t => Some (tt, f t, []).
Definition tell (e : Effect) : M unit := fun t => Some (tt, t, [e]).
Definition fault {A} : M A := fun _ => None.

Declare Scope slot_scope.
Delimit Scope slot_scope with slot.
Notation "x <- c ;; k" := (bind c (fun x => k))
  (at level 61, c at next level, right associativity) : slot_scope.
Notation "c ;; k" := (bind c (fun _ => k))
  (at level 61, right associativity) : slot_scope.
Local Open Scope string_scope.
Local Open Scope list_scope.
Local Open Scope Z_scope.
Local Open Scope slot_scope.

(** ** The slots of TimeularManager *)

Definition setStatus (status : Status) : M unit :=
  t <- get ;;
  if negb (Status_eqb status (m_status t)) then
    modify (set_status status) ;;
    t' <- get ;;
    tell (emit_statusChanged (m_status t'))
  else ret tt.

Definition startDiscovery : M unit :=
  t <- get ;;
  if negb (Status_eqb (m_status t) Disconneted) then ret tt
  else
    tell (qDebug "Starting Discovery") ;;
    setStatus Connecting ;;
    tell (agent_start LowEnergyMethod).

(** The lambda wired to the discovery agent's [finished] signal. *)
Definition scanFinished : M unit :=
  t <- get ;;
  match m_service t with
  | None => startDiscovery
  | Some _ => ret tt
  end.

(** [m_controller->f()]: a fault on the null pointer. *)
Definition on_controller (e : Effect) : M unit :=
  t <- get ;;
  match m_controller t with
  | None => fault
  | Some _ => tell e
  end.

(** [delete m_service]: nothing happens on the null pointer. *)
Definition delete_m_service : M unit :=
  t <- get ;;
  match m_service t with
  | None => ret tt
  | Some s => tell (delete_service s)
  end.

Definition deviceDiscovered (info : QBluetoothDeviceInfo) : M unit :=
  t <- get ;;
  if negb (Status_eqb (m_status t) Connecting) then ret tt
  else if Z.eqb (Z.land (coreConfigurations info) LowEnergyCoreConfiguration) 0
  then ret tt
  else if String.eqb (name info) "Timeular ZEI" then
    tell (qDebug "Connecting to device") ;;
    (match m_controller t with
     | None =>
         tell (createCentral info) ;;
         modify (set_controller (Some (mkController info PublicAddress))) ;;
         on_controller (setRemoteAddressType RandomAddress) ;;
         modify (set_controller (Some (mkController info RandomAddress))) ;;
         tell (connect sig_connected slot_deviceConnected) ;;
         tell (connect sig_error slot_errorReceived) ;;
         tell (connect sig_disconnected slot_deviceDisconnected) ;;
         tell (connect sig_serviceDiscovered slot_addLowEnergyService) ;;
         tell (connect sig_discoveryFinished slot_serviceScanDone)
     | Some _ => ret tt
     end) ;;
    on_controller connectToDevice
  else ret tt.

Definition deviceConnected : M unit :=
  on_controller discoverServices.

Definition deviceDisconnected : M unit :=
  setStatus Disconneted ;;
  delete_m_service ;;
  modify (set_service None) ;;
  tell (qDebug "Device Disconneted").

(** [errorString] is what [m_controller->errorString()] answers. *)
Definition errorReceived (errorString : string) : M unit :=
  on_controller (qWarning "Error: " errorString).

(** [created] is what [m_controller->createServiceObject] answers: the
    service object, or the null pointer when the controller does not
    know the service. *)
Definition serviceScanDone (created : option QLowEnergyService) : M unit :=
  t <- get ;;
  (match m_service t with
   | Some s => tell (delete_service s) ;; modify (set_service None)
   | None => ret tt
   end) ;;
  t <- get ;;
  (if m_serviceDiscovered t then
     on_controller (createServiceObject zeiOrientationService) ;;
     modify (set_service created)
   else ret tt) ;;
  t <- get ;;
  match m_service t with
  | Some _ =>
      tell (connect sig_stateChanged slot_serviceStateChanged) ;;
      tell (connect sig_characteristicChanged slot_deviceDataChanged) ;;
      tell (connect sig_descriptorWritten slot_confirmedDescriptorWrite) ;;
      tell discoverDetails
  | None => tell (qDebug "Service not found")
  end.

Definition confirmedDescriptorWrite (d : QLowEnergyDescriptor)
  (value : QByteArray) : M unit :=
  t <- get ;;
  if QLowEnergyDescriptor_isValid d
     && QLowEnergyDescriptor_eqb d (m_notificationDesc t)
     && QByteArray_eqb value fromHex_0000
  then
    on_controller disconnectFromDevice ;;
    delete_m_service ;;
    modify (set_service None)
  else ret tt.

Definition addLowEnergyService (serviceUuid : QBluetoothUuid) : M unit :=
  if N.eqb serviceUuid zeiOrientationService then
    modify (set_serviceDiscovered true)
  else ret tt.

Definition serviceStateChanged (newState : ServiceState) : M unit :=
  match newState with
  | DiscoveringServices => ret tt
  | ServiceDiscovered =>
      t <- get ;;
      match m_service t with
      | None => fault
      | Some s =>
          match characteristic s zeiOrientationCharacteristic with
          | None =>
              tell (qDebug "Orientation data not found") ;;
              setStatus Disconneted
          | Some orientationChar =>
              modify (set_notificationDesc
                        (descriptor s orientationChar
                           clientCharacteristicConfiguration)) ;;
              t <- get ;;
              if QLowEnergyDescriptor_isValid (m_notificationDesc t) then
                tell (qDebug "Device Connected") ;;
                setStatus Connected ;;
                tell (writeDescriptor (m_notificationDesc t) fromHex_0100)
              else setStatus Disconneted
          end
      end
  | _ => ret tt
  end.

Definition deviceDataChanged (c : QLowEnergyCharacteristic)
  (value : QByteArray) : M unit :=
  if negb (N.eqb (QLowEnergyCharacteristic_uuid c) zeiOrientationCharacteristic)
  then ret tt
  else
    match constData_at value 0 with
    | None => fault
    | Some data =>
        let orientation := data in
        tell (qDebugValue "Orientation" orientation) ;;
        let orientation := if Z.gtb orientation 8 then 0%Z else orientation in
        t <- get ;;
        if negb (Z.eqb orientation (Orientation_to_Z (m_orientation t))) then
          match Orientation_of_Z orientation with
          | None => fault
          | Some o =>
              modify (set_orientation o) ;;
              t' <- get ;;
              tell (emit_orientationChanged (m_orientation t'))
          end
        else ret tt
    end.

(** ** Events and runs

    The signals the manager is wired to, with what the environment
    supplies along with each. *)

Inductive Event :=
| EvStartDiscovery
| EvScanFinished
| EvDeviceDiscovered (info : QBluetoothDeviceInfo)
| EvConnected
| EvError (errorString : string)
| EvDisconnected
| EvServiceDiscovered (uuid : QBluetoothUuid)
| EvDiscoveryFinished (created : option QLowEnergyService)
| EvStateChanged (newState : ServiceState)
| EvCharacteristicChanged (c : QLowEnergyCharacteristic) (value : QByteArray)
| EvDescriptorWritten (d : QLowEnergyDescriptor) (value : QByteArray).

Definition dispatch (e : Event) : M unit :=
  match e with
  | EvStartDiscovery => startDiscovery
  | EvScanFinished => scanFinished
  | EvDeviceDiscovered info => deviceDiscovered info
  | EvConnected => deviceConnected
  | EvError s => errorReceived s
  | EvDisconnected => deviceDisconnected
  | EvServiceDiscovered uuid => addLowEnergyService uuid
  | EvDiscoveryFinished created => serviceScanDone created
  | EvStateChanged st => serviceStateChanged st
  | EvCharacteristicChanged c v => deviceDataChanged c v
  | EvDescriptorWritten d v => confirmedDescriptorWrite d v
  end.

Fixpoint run (evs : list Event) : M unit :=
  match evs with
  | [] => ret tt
  | e :: rest => dispatch e ;; run rest
  end.

(** ** Reading traces *)

Definition is_createCentral (e : Effect) : bool :=
  match e with createCentral _ => true | _ => false end.

Definition count_createCentral (tr : Trace) : nat :=
  List.length (filter is_createCentral tr).

(** The orientations announced by [orientationChanged], in order. *)
Fixpoint orientations_emitted (tr : Trace) : list Orientation :=
  match tr with
  | [] => []
  | emit_orientationChanged o :: rest => o :: orientations_emitted rest
  | _ :: rest => orientations_emitted rest
  end.

(** The descriptor writes requested from the service, in order. *)
Fixpoint descriptor_writes (tr : Trace)
  : list (QLowEnergyDescriptor * QByteArray) :=
  match tr with
  | [] => []
  | writeDescriptor d v :: rest => (d, v) :: descriptor_writes rest
  | _ :: rest => descriptor_writes rest
  end.

(** Scans started on the discovery agent. *)
Fixpoint scans_started (tr : Trace) : list DiscoveryMethod :=
  match tr with
  | [] => []
  | agent_start m :: rest => m :: scans_started rest
  | _ :: rest => scans_started rest
  end.

(** The statuses announced by [statusChanged], in order. *)
Fixpoint statuses_emitted (tr : Trace) : list Status :=
  match tr with
  | [] => []
  | emit_statusChanged s :: rest => s :: statuses_emitted rest
  | _ :: rest => statuses_emitted rest
  end.

(** What [setStatus] emits when the status goes from [old] to [new]. *)
Definition statusChanged_trace (old new : Status) : Trace :=
  if Status_eqb new old then [] else [emit_statusChanged new].

(** What [delete m_service] leaves in the trace. *)
Definition delete_trace (s : option QLowEnergyService) : Trace :=
  match s with Some x => [delete_service x] | None => [] end.

(** What creating and wiring the controller for [info] leaves in the
    trace. *)
Definition controller_setup_trace (info : QBluetoothDeviceInfo) : Trace :=
  [createCentral info;
   setRemoteAddressType RandomAddress;
   connect sig_connected slot_deviceConnected;
   connect sig_error slot_errorReceived;
   connect sig_disconnected slot_deviceDisconnected;
   connect sig_serviceDiscovered slot_addLowEnergyService;
   connect sig_discoveryFinished slot_serviceScanDone].

(** The admission criterion of [deviceDiscovered], as a proposition. *)
Definition admitted (t : TimeularManager) (info : QBluetoothDeviceInfo)
  : Prop :=
  m_status t = Connecting
  /\ Z.land (coreConfigurations info) LowEnergyCoreConfiguration <> 0
  /\ name info = "Timeular ZEI".

(** A signal can only arrive from an object that exists: the discovery
    agent always does, the controller and the service only while the
    manager holds them. *)
Definition enabled (t : TimeularManager) (e : Event) : bool :=
  match e with
  | EvStartDiscovery | EvScanFinished | EvDeviceDiscovered _ => true
  | EvConnected | EvError _ | EvDisconnected
  | EvServiceDiscovered _ | EvDiscoveryFinished _ =>
      match m_controller t with Some _ => true | None => false end
  | EvStateChanged _ | EvCharacteristicChanged _ _
  | EvDescriptorWritten _ _ =>
      match m_service t with Some _ => true | None => false end
  end.

(** A service is only ever held together with the controller that
    created it. *)
Definition handles_consistent (t : TimeularManager) : Prop :=
  m_service t <> None -> m_controller t <> None.

(** ** Sample devices, services and states *)

Definition zei_info : QBluetoothDeviceInfo :=
  mkDeviceInfo "Timeular ZEI" LowEnergyCoreConfiguration.

Definition other_info : QBluetoothDeviceInfo :=
  mkDeviceInfo "Other Dice" LowEnergyCoreConfiguration.

Definition orientation_char : CharacteristicData :=
  mkCharacteristicData zeiOrientationCharacteristic 1
    [(clientCharacteristicConfiguration, 2%nat)].

Definition zei_service : QLowEnergyService :=
  mkService 1 zeiOrientationService [orientation_char].

Definition zei_notificationDesc : QLowEnergyDescriptor :=
  Some (mkDescriptorData 1 1 2).

Definition zei_controller : QLowEnergyController :=
  mkController zei_info RandomAddress.

(** A manager streaming from the device, the tracker lying on face 3. *)
Definition streaming_face3 : TimeularManager :=
  {| m_status := Connected;
     m_serviceDiscovered := true;
     m_service := Some zei_service;
     m_controller := Some zei_controller;
     m_notificationDesc := zei_notificationDesc;
     m_orientation := Face3 |}.

(** A whole session: scan, connect, service discovery, notifications
    enabled, first orientation. *)
Definition session : list Event :=
  [EvStartDiscovery;
   EvDeviceDiscovered other_info;
   EvDeviceDiscovered zei_info;
   EvConnected;
   EvServiceDiscovered zeiOrientationService;
   EvDiscoveryFinished (Some zei_service);
   EvStateChanged ServiceDiscovered;
   EvCharacteristicChanged (Some orientation_char) [x03]].

(** The link drops and a second cycle runs in which the device reports
    no orientation service. *)
Definition second_cycle : list Event :=
  [EvDisconnected;
   EvStartDiscovery;
   EvDeviceDiscovered zei_info;
   EvConnected;
   EvDiscoveryFinished None].

(** A manager waiting for the device after a scan, and what may then
    arrive without ending the attempt. *)
Definition connecting_state : TimeularManager :=
  set_status Connecting (set_controller (Some zei_controller) initial).

Definition stalled_events : list Event :=
  [EvDiscoveryFinished None; EvScanFinished; EvStartDiscovery;
   EvError "timeout"; EvDeviceDiscovered other_info].

(** ** Reading whole runs *)

(** [changes x l]: every element of [l] differs from the one before
    it, the first one from [x]. *)
Fixpoint changes {A : Type} (x : A) (l : list A) : Prop :=
  match l with
  | [] => True
  | y :: rest => y <> x /\ changes y rest
  end.

Definition is_Connecting (s : Status) : bool :=
  match s with Connecting => true | _ => false end.

(** The event reports the orientation service UUID. *)
Definition reports_service (e : Event) : bool :=
  match e with
  | EvServiceDiscovered uuid => N.eqb uuid zeiOrientationService
  | _ => false
  end.

(** Every event of the sequence comes from an object that exists when
    the event is delivered. *)
Fixpoint live (evs : list Event) (t : TimeularManager) : bool :=
  match evs with
  | [] => true
  | e :: rest =>
      enabled t e
      && match dispatch e t with
         | Some (_, t1, _) => live rest t1
         | None => true
         end
  end.

(** A request to enable notifications: the bytes 01 00 to a valid
    descriptor. *)
Definition enables_notifications (w : QLowEnergyDescriptor * QByteArray)
  : Prop :=
  fst w <> None /\ snd w = [x01; x00].

(** The events that can take the manager out of Connecting or
    Connected. *)
Definition ends_session (e : Event) : bool :=
  match e with
  | EvDisconnected | EvStateChanged ServiceDiscovered => true
  | _ => false
  end.

(** ** Proof automation *)

(** Unfolds the monad so that a slot applied to a manager computes. *)
Ltac run_slot :=
  unfold bind, get, modify, tell, ret, fault; cbv beta iota zeta.

(** Case analysis on the innermost scrutinee inside [x]. *)
Ltac break_inner x :=
  lazymatch x with
  | context [match ?y with _ => _ end] => break_inner y
  | _ => destruct x eqn:?
  end.

(** Splits a successful run of a slot into the paths the slot can
    take. *)
Ltac slot_paths H :=
  unfold dispatch, startDiscovery, scanFinished, startDiscovery,
    deviceDiscovered, deviceConnected, deviceDisconnected, errorReceived,
    serviceScanDone, confirmedDescriptorWrite, addLowEnergyService,
    serviceStateChanged, deviceDataChanged, setStatus, on_controller,
    delete_m_service in H;
  unfold bind, get, modify, tell, ret, fault in H;
  cbv beta iota zeta in H;
  repeat match type of H with
         | context [match ?x with _ => _ end] =>
             break_inner x; cbv beta iota zeta in H
         end;
  try discriminate H;
  inversion H; subst; clear H.

(** ** Basic facts *)

Lemma quint8_of_byte_range (b : byte) : 0 <= quint8_of_byte b <= 255.
Proof. destruct b; vm_compute; split; discriminate. Qed.

Lemma Orientation_of_to_Z (o : Orientation) :
  Orientation_of_Z (Orientation_to_Z o) = Some o.
Proof. destruct o; reflexivity. Qed.

Lemma Orientation_to_Z_inj (a b : Orientation) :
  Orientation_to_Z a = Orientation_to_Z b -> a = b.
Proof.
  intros H. apply (f_equal Orientation_of_Z) in H.
  rewrite !Orientation_of_to_Z in H. congruence.
Qed.

Lemma Orientation_of_Z_small (n : Z) :
  0 <= n <= 8 ->
  exists o, Orientation_of_Z n = Some o /\ Orientation_to_Z o = n.
Proof.
  intros Hn.
  assert (H : n = 0 \/ n = 1 \/ n = 2 \/ n = 3 \/ n = 4 \/ n = 5
              \/ n = 6 \/ n = 7 \/ n = 8) by lia.
  repeat (destruct H as [-> | H]); try subst n;
    eexists; split; reflexivity.
Qed.

Lemma Status_eqb_eq (a b : Status) : Status_eqb a b = true <-> a = b.
Proof. destruct a, b; simpl; split; congruence. Qed.

Lemma DescriptorData_eqb_eq (a b : DescriptorData) :
  DescriptorData_eqb a b = true <-> a = b.
Proof.
  destruct a as [s1 c1 h1], b as [s2 c2 h2]. unfold DescriptorData_eqb; simpl.
  rewrite !andb_true_iff, !Nat.eqb_eq. split.
  - intros [[-> ->] ->]. reflexivity.
  - intros H. injection H as -> -> ->. auto.
Qed.

Lemma QLowEnergyDescriptor_eqb_eq (a b : QLowEnergyDescriptor) :
  QLowEnergyDescriptor_eqb a b = true <-> a = b.
Proof.
  destruct a as [x|], b as [y|]; simpl.
  - rewrite DescriptorData_eqb_eq. split; congruence.
  - split; discriminate.
  - split; discriminate.
  - split; reflexivity.
Qed.

Lemma QByteArray_eqb_eq (a b : QByteArray) :
  QByteArray_eqb a b = true <-> a = b.
Proof.
  unfold QByteArray_eqb. destruct (list_eq_dec byte_eq_dec a b); split;
    congruence.
Qed.

(** Writing a member with the value it holds changes nothing. *)
Lemma set_orientation_same (t : TimeularManager) :
  set_orientation (m_orientation t) t = t.
Proof. destruct t; reflexivity. Qed.

Lemma set_status_same (t : TimeularManager) :
  set_status (m_status t) t = t.
Proof. destruct t; reflexivity. Qed.

(** [setStatus] never faults; it emits exactly when the status changes. *)
Lemma setStatus_run (status : Status) (t : TimeularManager) :
  setStatus status t
  = Some (tt, set_status status t, statusChanged_trace (m_status t) status).
Proof.
  unfold setStatus, statusChanged_trace, bind, get, modify, tell, ret.
  destruct (Status_eqb status (m_status t)) eqn:E; simpl.
  - apply Status_eqb_eq in E. rewrite E, set_status_same. reflexivity.
  - reflexivity.
Qed.

(** The first byte read by [deviceDataChanged] is always in bounds. *)
Lemma constData_at_0 (value : QByteArray) :
  exists data, constData_at value 0 = Some data /\ 0 <= data <= 255.
Proof.
  destruct value as [|b rest]; simpl.
  - exists 0. split; [reflexivity | lia].
  - exists (quint8_of_byte b). split; [reflexivity | apply quint8_of_byte_range].
Qed.

(** The body of [deviceDataChanged] once the characteristic matched and
    the byte [data] was read. *)
Lemma deviceDataChanged_run (c : QLowEnergyCharacteristic)
  (value : QByteArray) (t : TimeularManager) (data : quint8) :
  QLowEnergyCharacteristic_uuid c = zeiOrientationCharacteristic ->
  constData_at value 0 = Some data ->
  0 <= data <= 255 ->
  exists o,
    Orientation_to_Z o = (if data <=? 8 then data else 0)
    /\ deviceDataChanged c value t
       = Some (tt, set_orientation o t,
               qDebugValue "Orientation" data
               :: (if Z.eqb (Orientation_to_Z o)
                            (Orientation_to_Z (m_orientation t))
                   then [] else [emit_orientationChanged o])).
Proof.
  intros Hc Hdata Hrange.
  unfold deviceDataChanged. rewrite Hc, N.eqb_refl. cbn [negb]. cbv iota.
  rewrite Hdata.
  assert (Hclamp : (if data >? 8 then 0 else data)
                   = (if data <=? 8 then data else 0)).
  { rewrite Z.gtb_ltb. destruct (Z.ltb_spec 8 data), (Z.leb_spec data 8);
      try reflexivity; lia. }
  set (n := if data >? 8 then 0 else data) in *.
  assert (Hn : 0 <= n <= 8).
  { rewrite Hclamp. destruct (Z.leb_spec data 8); lia. }
  destruct (Orientation_of_Z_small n Hn) as (o & Hof & Hto).
  unfold bind, get, modify, tell, ret. cbv beta iota zeta.
  destruct (Z.eqb_spec n (Orientation_to_Z (m_orientation t))) as [Heq | Hne];
    cbn [negb].
  - exists (m_orientation t). rewrite Z.eqb_refl, set_orientation_same.
    split; [ rewrite <- Heq; exact Hclamp | reflexivity ].
  - exists o. rewrite Hof, Hto.
    destruct (Z.eqb_spec n (Orientation_to_Z (m_orientation t))); [ lia | ].
    split; [ exact Hclamp | reflexivity ].
Qed.

(** ** Orientation notifications *)

(** C1: a notification on the orientation characteristic with a
    non-empty payload never faults; the orientation stored afterwards
    is the enumerator numbered by the first byte when that byte is at
    most 8, and Vertical when it is 9..255; nothing else in the manager
    changes. *)
Theorem deviceDataChanged_decodes_first_byte
  (c : QLowEnergyCharacteristic) (b : byte) (rest : QByteArray)
  (t : TimeularManager) :
  QLowEnergyCharacteristic_uuid c = zeiOrientationCharacteristic ->
  exists o tr,
    deviceDataChanged c (b :: rest) t = Some (tt, set_orientation o t, tr)
    /\ 0 <= quint8_of_byte b <= 255
    /\ (quint8_of_byte b <= 8 -> Orientation_to_Z o = quint8_of_byte b)
    /\ (9 <= quint8_of_byte b -> o = Vertical).
Proof.
  intros Hc.
  pose proof (quint8_of_byte_range b) as Hb.
  destruct (deviceDataChanged_run c (b :: rest) t (quint8_of_byte b) Hc
              eq_refl Hb) as (o & Ho & Hrun).
  exists o. eexists. split; [ exact Hrun | ]. split; [ exact Hb | ].
  destruct (Z.leb_spec (quint8_of_byte b) 8) as [Hle | Hgt].
  - split; [ intros _; exact Ho | lia ].
  - split; [ lia | ]. intros _. apply Orientation_to_Z_inj. exact Ho.
Qed.

Lemma deviceDataChanged_decodes_first_byte_witness :
  QLowEnergyCharacteristic_uuid (Some orientation_char)
  = zeiOrientationCharacteristic
  /\ exists o tr,
       deviceDataChanged (Some orientation_char) [x05; x00] streaming_face3
       = Some (tt, set_orientation o streaming_face3, tr)
       /\ 0 <= quint8_of_byte x05 <= 255
       /\ (quint8_of_byte x05 <= 8 -> Orientation_to_Z o = quint8_of_byte x05)
       /\ (9 <= quint8_of_byte x05 -> o = Vertical).
Proof.
  split.
  - reflexivity.
  - apply (deviceDataChanged_decodes_first_byte (Some orientation_char) x05
             [x00] streaming_face3). reflexivity.
Defined.

(** C8: the notification handler emits orientationChanged exactly when
    the decoded orientation differs from the stored one, and then once,
    with the decoded value; a notification decoding to the stored value
    emits nothing and leaves the manager as it was. *)
Theorem deviceDataChanged_emits_iff_changed
  (c : QLowEnergyCharacteristic) (value : QByteArray) (t : TimeularManager) :
  QLowEnergyCharacteristic_uuid c = zeiOrientationCharacteristic ->
  exists data o tr,
    constData_at value 0 = Some data
    /\ Orientation_to_Z o = (if data <=? 8 then data else 0)
    /\ deviceDataChanged c value t = Some (tt, set_orientation o t, tr)
    /\ (orientations_emitted tr <> [] <-> o <> m_orientation t)
    /\ (o <> m_orientation t -> orientations_emitted tr = [o])
    /\ (o = m_orientation t ->
        orientations_emitted tr = [] /\ set_orientation o t = t).
Proof.
  intros Hc.
  destruct (constData_at_0 value) as (data & Hdata & Hrange).
  destruct (deviceDataChanged_run c value t data Hc Hdata Hrange)
    as (o & Ho & Hrun).
  exists data, o. eexists.
  split; [ exact Hdata | ]. split; [ exact Ho | ]. split; [ exact Hrun | ].
  destruct (Z.eqb_spec (Orientation_to_Z o) (Orientation_to_Z (m_orientation t)))
    as [Heq | Hne]; cbn [orientations_emitted].
  - apply Orientation_to_Z_inj in Heq.
    split; [ split; intros H; contradiction | ].
    split; [ intros H; contradiction | ].
    intros _. split; [ reflexivity | ].
    rewrite Heq. apply set_orientation_same.
  - assert (Hno : o <> m_orientation t) by congruence.
    split; [ split; intros _; [ exact Hno | discriminate ] | ].
    split; [ intros _; reflexivity | ].
    intros H. contradiction.
Qed.

Lemma deviceDataChanged_emits_iff_changed_witness :
  QLowEnergyCharacteristic_uuid (Some orientation_char)
  = zeiOrientationCharacteristic
  /\ exists data o tr,
       constData_at [x03] 0 = Some data
       /\ Orientation_to_Z o = (if data <=? 8 then data else 0)
       /\ deviceDataChanged (Some orientation_char) [x03] streaming_face3
          = Some (tt, set_orientation o streaming_face3, tr)
       /\ (orientations_emitted tr <> [] <-> o <> m_orientation streaming_face3)
       /\ (o <> m_orientation streaming_face3 -> orientations_emitted tr = [o])
       /\ (o = m_orientation streaming_face3 ->
           orientations_emitted tr = []
           /\ set_orientation o streaming_face3 = streaming_face3).
Proof.
  split.
  - reflexivity.
  - apply (deviceDataChanged_emits_iff_changed (Some orientation_char) [x03]
             streaming_face3). reflexivity.
Defined.

(** C4, as the code has it: a notification on the orientation
    characteristic with an empty payload never faults (the byte read is
    the terminator of the byte array) and is handled as the byte 0: the
    stored orientation becomes Vertical, orientationChanged(Vertical) is
    emitted unless Vertical was stored already, and in that case the
    manager is left as it was. *)
Theorem deviceDataChanged_empty_payload
  (c : QLowEnergyCharacteristic) (t : TimeularManager) :
  QLowEnergyCharacteristic_uuid c = zeiOrientationCharacteristic ->
  deviceDataChanged c [] t
  = Some (tt, set_orientation Vertical t,
          qDebugValue "Orientation" 0
          :: match m_orientation t with
             | Vertical => []
             | _ => [emit_orientationChanged Vertical]
             end)
  /\ (m_orientation t = Vertical -> set_orientation Vertical t = t).
Proof.
  intros Hc. split.
  - unfold deviceDataChanged. rewrite Hc, N.eqb_refl.
    destruct t as [st sd sv ct nd o]. destruct o; reflexivity.
  - intros H. rewrite <- H. apply set_orientation_same.
Qed.

Lemma deviceDataChanged_empty_payload_witness :
  QLowEnergyCharacteristic_uuid (Some orientation_char)
  = zeiOrientationCharacteristic
  /\ deviceDataChanged (Some orientation_char) [] initial
     = Some (tt, set_orientation Vertical initial,
             qDebugValue "Orientation" 0
             :: match m_orientation initial with
                | Vertical => []
                | _ => [emit_orientationChanged Vertical]
                end)
  /\ (m_orientation initial = Vertical ->
      set_orientation Vertical initial = initial).
Proof.
  split.
  - reflexivity.
  - apply (deviceDataChanged_empty_payload (Some orientation_char) initial).
    reflexivity.
Defined.

(** C4 as stated fails: with Face3 stored, an empty payload on the
    orientation characteristic changes the stored orientation and emits
    orientationChanged. *)
Lemma deviceDataChanged_empty_payload_not_noop :
  exists t' tr,
    deviceDataChanged (Some orientation_char) [] streaming_face3
    = Some (tt, t', tr)
    /\ t' <> streaming_face3
    /\ m_orientation t' = Vertical
    /\ orientations_emitted tr = [Vertical].
Proof.
  exists (set_orientation Vertical streaming_face3).
  exists [qDebugValue "Orientation" 0; emit_orientationChanged Vertical].
  split; [ reflexivity | ].
  split; [ discriminate | ]. split; reflexivity.
Qed.

(** ** Discovery and the connection life cycle *)

(** C2: startDiscovery does nothing at all unless the status is
    Disconneted (same manager, empty trace: no scan, no signal); from
    Disconneted it makes the status Connecting, emits statusChanged and
    starts a low-energy scan. *)
Theorem startDiscovery_guarded (t : TimeularManager) :
  startDiscovery t
  = match m_status t with
    | Disconneted =>
        Some (tt, set_status Connecting t,
              [qDebug "Starting Discovery";
               emit_statusChanged Connecting;
               agent_start LowEnergyMethod])
    | Connecting | Connected => Some (tt, t, [])
    end.
Proof.
  unfold startDiscovery, setStatus. run_slot.
  destruct t as [st sd sv ct nd o]. destruct st; reflexivity.
Qed.

(** C6: whatever the status was, deviceDisconnected leaves the status
    Disconneted and the service pointer null after deleting the service
    it held; it starts no scan and asks for no connection. *)
Theorem deviceDisconnected_clears (t : TimeularManager) :
  exists t' tr,
    deviceDisconnected t = Some (tt, t', tr)
    /\ t' = set_service None (set_status Disconneted t)
    /\ m_status t' = Disconneted
    /\ m_service t' = None
    /\ tr = statusChanged_trace (m_status t) Disconneted
            ++ delete_trace (m_service t)
            ++ [qDebug "Device Disconneted"]
    /\ scans_started tr = []
    /\ ~ In connectToDevice tr.
Proof.
  exists (set_service None (set_status Disconneted t)).
  exists (statusChanged_trace (m_status t) Disconneted
          ++ delete_trace (m_service t) ++ [qDebug "Device Disconneted"]).
  destruct t as [st sd sv ct nd o]. split.
  - unfold deviceDisconnected, setStatus, delete_m_service. run_slot.
    destruct st, sv; reflexivity.
  - destruct st, sv; cbn; repeat split; try reflexivity;
      intros H; repeat (destruct H as [H | H]; [ discriminate H | ]);
      exact H.
Qed.

(** C5: when the target-service flag is unset, serviceScanDone creates
    no service object and does not call discoverDetails; the status is
    left as it was, so it does not become Connected, and no service is
    held afterwards. *)
Theorem serviceScanDone_service_not_found
  (created : option QLowEnergyService) (t : TimeularManager) :
  m_serviceDiscovered t = false ->
  exists t' tr,
    serviceScanDone created t = Some (tt, t', tr)
    /\ t' = set_service None t
    /\ tr = delete_trace (m_service t) ++ [qDebug "Service not found"]
    /\ m_service t' = None
    /\ m_status t' = m_status t
    /\ (m_status t <> Connected -> m_status t' <> Connected)
    /\ (forall uuid, ~ In (createServiceObject uuid) tr)
    /\ ~ In discoverDetails tr
    /\ statuses_emitted tr = [].
Proof.
  intros Hflag.
  exists (set_service None t).
  exists (delete_trace (m_service t) ++ [qDebug "Service not found"]).
  destruct t as [st sd sv ct nd o]. cbn in Hflag. subst sd.
  split.
  - unfold serviceScanDone. run_slot. destruct sv; reflexivity.
  - split; [ reflexivity | ]. split; [ reflexivity | ].
    split; [ reflexivity | ]. split; [ reflexivity | ].
    split; [ cbn; auto | ].
    destruct sv; cbn.
    + split; [ intros uuid [H | [H | []]]; discriminate H | ].
      split; [ intros [H | [H | []]]; discriminate H | reflexivity ].
    + split; [ intros uuid [H | []]; discriminate H | ].
      split; [ intros [H | []]; discriminate H | reflexivity ].
Qed.

Lemma serviceScanDone_service_not_found_witness :
  m_serviceDiscovered (set_status Connecting initial) = false
  /\ exists t' tr,
       serviceScanDone (Some zei_service) (set_status Connecting initial)
       = Some (tt, t', tr)
       /\ t' = set_service None (set_status Connecting initial)
       /\ tr = delete_trace (m_service (set_status Connecting initial))
               ++ [qDebug "Service not found"]
       /\ m_service t' = None
       /\ m_status t' = m_status (set_status Connecting initial)
       /\ (m_status (set_status Connecting initial) <> Connected ->
           m_status t' <> Connected)
       /\ (forall uuid, ~ In (createServiceObject uuid) tr)
       /\ ~ In discoverDetails tr
       /\ statuses_emitted tr = [].
Proof.
  split.
  - reflexivity.
  - apply (serviceScanDone_service_not_found (Some zei_service)
             (set_status Connecting initial)). reflexivity.
Defined.

(** C3: on ServiceDiscovered, with a service held: when the orientation
    characteristic is missing the status is set to Disconneted and
    nothing is written; when it is there with its client characteristic
    configuration descriptor, the status is set to Connected and the
    bytes 01 00 are written to that descriptor, once; when the
    descriptor is missing the status is set to Disconneted and nothing
    is written. *)
Theorem serviceStateChanged_discovered
  (s : QLowEnergyService) (t : TimeularManager) :
  m_service t = Some s ->
  exists t' tr,
    serviceStateChanged ServiceDiscovered t = Some (tt, t', tr)
    /\ match characteristic s zeiOrientationCharacteristic with
       | None =>
           t' = set_status Disconneted t
           /\ m_status t' = Disconneted
           /\ descriptor_writes tr = []
       | Some orientationChar =>
           match descriptor s orientationChar
                   clientCharacteristicConfiguration with
           | Some d =>
               t' = set_status Connected (set_notificationDesc (Some d) t)
               /\ m_status t' = Connected
               /\ descriptor_writes tr = [(Some d, [x01; x00])]
           | None =>
               t' = set_status Disconneted (set_notificationDesc None t)
               /\ m_status t' = Disconneted
               /\ descriptor_writes tr = []
           end
       end.
Proof.
  intros Hs.
  unfold serviceStateChanged. run_slot. rewrite Hs.
  destruct (characteristic s zeiOrientationCharacteristic) as [ch|].
  - cbn [m_notificationDesc set_notificationDesc].
    destruct (descriptor s ch clientCharacteristicConfiguration) as [d|];
      cbn [QLowEnergyDescriptor_isValid]; rewrite !setStatus_run;
      eexists; eexists; (split; [ reflexivity | ]);
      (split; [ reflexivity | ]); (split; [ reflexivity | ]);
      cbn [m_status set_notificationDesc];
      destruct (m_status t); reflexivity.
  - rewrite setStatus_run. eexists. eexists. split; [ reflexivity | ].
    split; [ reflexivity | ]. split; [ reflexivity | ].
    destruct (m_status t); reflexivity.
Qed.

Lemma serviceStateChanged_discovered_witness :
  m_service (set_status Connecting streaming_face3) = Some zei_service
  /\ exists t' tr,
       serviceStateChanged ServiceDiscovered
         (set_status Connecting streaming_face3) = Some (tt, t', tr)
       /\ t' = streaming_face3
       /\ descriptor_writes tr = [(zei_notificationDesc, [x01; x00])].
Proof.
  split.
  - reflexivity.
  - destruct (serviceStateChanged_discovered zei_service
                (set_status Connecting streaming_face3) eq_refl)
      as (t' & tr & Hrun & Hcase).
    exists t', tr. split; [ exact Hrun | ].
    cbv in Hcase. destruct Hcase as (Ht & _ & Hw).
    split; [ exact Ht | exact Hw ].
Defined.

(** C7: with a controller held, a confirmed write of the bytes 00 00 to
    the (valid) notification descriptor asks the controller to
    disconnect, deletes the held service and nulls its pointer; a write
    of any other value, or to any other descriptor, leaves the manager
    untouched and calls nothing. *)
Theorem confirmedDescriptorWrite_disconnects
  (d : QLowEnergyDescriptor) (value : QByteArray) (t : TimeularManager) :
  (forall ctl,
      m_controller t = Some ctl ->
      d <> None -> d = m_notificationDesc t -> value = [x00; x00] ->
      confirmedDescriptorWrite d value t
      = Some (tt, set_service None t,
              disconnectFromDevice :: delete_trace (m_service t)))
  /\ (d = None \/ d <> m_notificationDesc t \/ value <> [x00; x00] ->
      confirmedDescriptorWrite d value t = Some (tt, t, [])).
Proof.
  split.
  - intros ctl Hctl Hvalid Hd Hvalue. subst d value.
    assert (Hcond : QLowEnergyDescriptor_isValid (m_notificationDesc t)
                    && QLowEnergyDescriptor_eqb (m_notificationDesc t)
                         (m_notificationDesc t)
                    && QByteArray_eqb [x00; x00] fromHex_0000 = true).
    { rewrite !andb_true_iff. repeat split.
      - destruct (m_notificationDesc t); [ reflexivity | congruence ].
      - apply QLowEnergyDescriptor_eqb_eq. reflexivity. }
    unfold confirmedDescriptorWrite. run_slot. rewrite Hcond.
    unfold on_controller, delete_m_service. run_slot. rewrite Hctl.
    destruct (m_service t); reflexivity.
  - intros H. unfold confirmedDescriptorWrite. run_slot.
    destruct (QLowEnergyDescriptor_isValid d
              && QLowEnergyDescriptor_eqb d (m_notificationDesc t)
              && QByteArray_eqb value fromHex_0000) eqn:E; [ | reflexivity ].
    apply andb_true_iff in E. destruct E as [E Hv].
    apply andb_true_iff in E. destruct E as [Hvalid Heq].
    apply QLowEnergyDescriptor_eqb_eq in Heq.
    apply QByteArray_eqb_eq in Hv.
    destruct H as [H | [H | H]].
    + subst d. discriminate Hvalid.
    + contradiction.
    + contradiction.
Qed.

Lemma confirmedDescriptorWrite_disconnects_witness :
  confirmedDescriptorWrite zei_notificationDesc [x00; x00] streaming_face3
  = Some (tt, set_service None streaming_face3,
          [disconnectFromDevice; delete_service zei_service])
  /\ confirmedDescriptorWrite zei_notificationDesc [x01; x00] streaming_face3
     = Some (tt, streaming_face3, []).
Proof.
  split.
  - apply (proj1 (confirmedDescriptorWrite_disconnects zei_notificationDesc
                    [x00; x00] streaming_face3) zei_controller).
    + reflexivity.
    + discriminate.
    + reflexivity.
    + reflexivity.
  - apply (proj2 (confirmedDescriptorWrite_disconnects zei_notificationDesc
                    [x01; x00] streaming_face3)).
    right. right. discriminate.
Defined.

(** ** Admission of discovered devices *)

(** [deviceDiscovered] never faults; this is all it can do. *)
Lemma deviceDiscovered_run (info : QBluetoothDeviceInfo) (t : TimeularManager) :
  deviceDiscovered info t
  = if Status_eqb (m_status t) Connecting
       && negb (Z.eqb (Z.land (coreConfigurations info)
                         LowEnergyCoreConfiguration) 0)
       && String.eqb (name info) "Timeular ZEI"
    then
      match m_controller t with
      | Some _ =>
          Some (tt, t, [qDebug "Connecting to device"; connectToDevice])
      | None =>
          Some (tt, set_controller (Some (mkController info RandomAddress)) t,
                qDebug "Connecting to device"
                :: controller_setup_trace info ++ [connectToDevice])
      end
    else Some (tt, t, []).
Proof.
  unfold deviceDiscovered, on_controller. run_slot.
  destruct (Status_eqb (m_status t) Connecting); [ | reflexivity ].
  destruct (Z.eqb (Z.land (coreConfigurations info)
                     LowEnergyCoreConfiguration) 0); [ reflexivity | ].
  destruct (String.eqb (name info) "Timeular ZEI"); [ | reflexivity ].
  destruct t as [st sd sv ct nd o]. destruct ct; reflexivity.
Qed.

Lemma admitted_iff (t : TimeularManager) (info : QBluetoothDeviceInfo) :
  admitted t info
  <-> Status_eqb (m_status t) Connecting
      && negb (Z.eqb (Z.land (coreConfigurations info)
                        LowEnergyCoreConfiguration) 0)
      && String.eqb (name info) "Timeular ZEI" = true.
Proof.
  unfold admitted.
  rewrite !andb_true_iff, negb_true_iff, Status_eqb_eq, String.eqb_eq,
    Z.eqb_neq.
  tauto.
Qed.

Lemma count_createCentral_app (a b : Trace) :
  count_createCentral (a ++ b)
  = (count_createCentral a + count_createCentral b)%nat.
Proof.
  unfold count_createCentral. rewrite filter_app, length_app. reflexivity.
Qed.

(** One discovery event creates a controller only when none is held,
    and afterwards one is held. *)
Lemma deviceDiscovered_creates (info : QBluetoothDeviceInfo)
  (t : TimeularManager) :
  exists t' tr,
    deviceDiscovered info t = Some (tt, t', tr)
    /\ (count_createCentral tr
        <= match m_controller t with Some _ => 0 | None => 1 end)%nat
    /\ (m_controller t <> None -> m_controller t' <> None)
    /\ (count_createCentral tr = 1%nat -> m_controller t' <> None).
Proof.
  rewrite deviceDiscovered_run.
  destruct (Status_eqb (m_status t) Connecting
            && negb (Z.eqb (Z.land (coreConfigurations info)
                              LowEnergyCoreConfiguration) 0)
            && String.eqb (name info) "Timeular ZEI").
  - destruct (m_controller t) eqn:Hc; eexists; eexists;
      (split; [ reflexivity | ]); cbn.
    + rewrite Hc. repeat split; try lia; discriminate.
    + repeat split; try lia; discriminate.
  - eexists. eexists. split; [ reflexivity | ]. cbn.
    destruct (m_controller t); repeat split; try lia; auto; discriminate.
Qed.

(** However many discovery events arrive, at most one controller is
    created. *)
Lemma deviceDiscovered_events_create_once (infos : list QBluetoothDeviceInfo) :
  forall t,
  exists t' tr,
    run (map EvDeviceDiscovered infos) t = Some (tt, t', tr)
    /\ (count_createCentral tr
        <= match m_controller t with Some _ => 0 | None => 1 end)%nat.
Proof.
  induction infos as [|info infos IH]; intros t.
  - exists t, []. split; [ reflexivity | ]. cbn. destruct (m_controller t); lia.
  - destruct (deviceDiscovered_creates info t)
      as (t1 & tr1 & Hrun1 & Hcount1 & Hkeep & Hnew).
    destruct (IH t1) as (t2 & tr2 & Hrun2 & Hcount2).
    exists t2, (tr1 ++ tr2). split.
    + cbn [map run dispatch]. unfold bind. rewrite Hrun1, Hrun2. reflexivity.
    + rewrite count_createCentral_app.
      destruct (m_controller t) eqn:Hc.
      * assert (m_controller t1 <> None) by (apply Hkeep; discriminate).
        destruct (m_controller t1); [ lia | congruence ].
      * destruct (m_controller t1) eqn:Hc1; [ lia | ].
        assert (count_createCentral tr1 <> 1%nat)
          by (intros H1; apply Hnew in H1; congruence).
        lia.
Qed.

(** C9: deviceDiscovered does nothing at all (same manager, empty
    trace) unless the status is Connecting, the device exposes the
    low-energy core configuration and its name is exactly
    "Timeular ZEI"; for such a device it creates and wires a controller
    only if none is held, then calls connectToDevice; any run of
    discovery events creates at most one controller. *)
Theorem deviceDiscovered_admission
  (info : QBluetoothDeviceInfo) (t : TimeularManager) :
  (~ admitted t info -> deviceDiscovered info t = Some (tt, t, []))
  /\ (admitted t info ->
      deviceDiscovered info t
      = match m_controller t with
        | Some _ =>
            Some (tt, t, [qDebug "Connecting to device"; connectToDevice])
        | None =>
            Some (tt,
                  set_controller (Some (mkController info RandomAddress)) t,
                  qDebug "Connecting to device"
                  :: controller_setup_trace info ++ [connectToDevice])
        end)
  /\ (forall infos,
        exists t' tr,
          run (map EvDeviceDiscovered infos) t = Some (tt, t', tr)
          /\ (count_createCentral tr <= 1)%nat).
Proof.
  pose proof (admitted_iff t info) as Hadm.
  pose proof (deviceDiscovered_run info t) as Hrun.
  destruct (Status_eqb (m_status t) Connecting
            && negb (Z.eqb (Z.land (coreConfigurations info)
                              LowEnergyCoreConfiguration) 0)
            && String.eqb (name info) "Timeular ZEI").
  - split; [ intros Hn; exfalso; apply Hn, Hadm; reflexivity | ].
    split; [ intros _; exact Hrun | ].
    intros infos.
    destruct (deviceDiscovered_events_create_once infos t)
      as (t' & tr & Hr & Hc).
    exists t', tr. split; [ exact Hr | ]. destruct (m_controller t); lia.
  - split; [ intros _; exact Hrun | ].
    split; [ intros Ha; apply Hadm in Ha; discriminate Ha | ].
    intros infos.
    destruct (deviceDiscovered_events_create_once infos t)
      as (t' & tr & Hr & Hc).
    exists t', tr. split; [ exact Hr | ]. destruct (m_controller t); lia.
Qed.

Lemma deviceDiscovered_admission_witness :
  admitted (set_status Connecting initial) zei_info
  /\ deviceDiscovered zei_info (set_status Connecting initial)
     = Some (tt,
             set_controller (Some zei_controller)
               (set_status Connecting initial),
             qDebug "Connecting to device"
             :: controller_setup_trace zei_info ++ [connectToDevice])
  /\ ~ admitted (set_status Connecting initial) other_info
  /\ deviceDiscovered other_info (set_status Connecting initial)
     = Some (tt, set_status Connecting initial, []).
Proof.
  assert (Hyes : admitted (set_status Connecting initial) zei_info).
  { repeat split. discriminate. }
  assert (Hno : ~ admitted (set_status Connecting initial) other_info).
  { intros (_ & _ & Hname). discriminate Hname. }
  split; [ exact Hyes | ].
  split.
  - exact (proj1 (proj2 (deviceDiscovered_admission zei_info
                           (set_status Connecting initial))) Hyes).
  - split; [ exact Hno | ].
    exact (proj1 (deviceDiscovered_admission other_info
                    (set_status Connecting initial)) Hno).
Defined.

(** ** What every slot preserves *)

(** No slot clears the target-service flag. *)
Lemma dispatch_keeps_flag (e : Event) (t t' : TimeularManager) (tr : Trace) :
  m_serviceDiscovered t = true ->
  dispatch e t = Some (tt, t', tr) ->
  m_serviceDiscovered t' = true.
Proof.
  intros Hflag H.
  destruct e; slot_paths H; cbn;
    first [ assumption | reflexivity | congruence ].
Qed.

Lemma run_cons_inv (e : Event) (rest : list Event)
  (t t' : TimeularManager) (tr : Trace) :
  run (e :: rest) t = Some (tt, t', tr) ->
  exists t1 tr1 tr2,
    dispatch e t = Some (tt, t1, tr1)
    /\ run rest t1 = Some (tt, t', tr2)
    /\ tr = tr1 ++ tr2.
Proof.
  cbn [run]. unfold bind.
  destruct (dispatch e t) as [[[[] t1] tr1]|] eqn:Hstep; [ | discriminate ].
  destruct (run rest t1) as [[[[] t2] tr2]|] eqn:Hrest; [ | discriminate ].
  intros H. inversion H; subst. exists t1, tr1, tr2.
  split; [ reflexivity | ]. split; [ exact Hrest | reflexivity ].
Qed.

(** The flag survives any sequence of events. *)
Lemma run_keeps_flag (evs : list Event) :
  forall t t' tr,
    m_serviceDiscovered t = true ->
    run evs t = Some (tt, t', tr) ->
    m_serviceDiscovered t' = true.
Proof.
  induction evs as [|e rest IH]; intros t t' tr Hflag Hrun.
  - inversion Hrun; subst. exact Hflag.
  - apply run_cons_inv in Hrun.
    destruct Hrun as (t1 & tr1 & tr2 & Hstep & Hrest & _).
    apply (IH t1 t' tr2); [ | exact Hrest ].
    exact (dispatch_keeps_flag e t t1 tr1 Hflag Hstep).
Qed.

(** With the flag set and a controller held, [serviceScanDone] asks the
    controller for the orientation service and holds what it answers. *)
Lemma serviceScanDone_flag_set (created : option QLowEnergyService)
  (ctl : QLowEnergyController) (t : TimeularManager) :
  m_serviceDiscovered t = true ->
  m_controller t = Some ctl ->
  exists tr,
    serviceScanDone created t = Some (tt, set_service created t, tr)
    /\ In (createServiceObject zeiOrientationService) tr.
Proof.
  intros Hflag Hctl. destruct t as [st sd sv ct nd o].
  cbn in Hflag, Hctl. subst sd ct.
  unfold serviceScanDone, on_controller. run_slot.
  destruct sv, created; eexists; (split; [ reflexivity | ]); cbn; auto.
Qed.

(** Slots run on signals of existing objects never fault, and keep the
    handles consistent. *)
Lemma dispatch_safe (e : Event) (t : TimeularManager) :
  handles_consistent t ->
  enabled t e = true ->
  exists t' tr,
    dispatch e t = Some (tt, t', tr) /\ handles_consistent t'.
Proof.
  unfold handles_consistent. intros Hinv Hen.
  destruct e; cbn [dispatch].
  - unfold startDiscovery.
    destruct t as [st sd sv ct nd o]. destruct st;
      eexists; eexists; (split; [ reflexivity | exact Hinv ]).
  - unfold scanFinished, startDiscovery.
    destruct t as [st sd sv ct nd o]. destruct sv, st;
      eexists; eexists; (split; [ reflexivity | exact Hinv ]).
  - destruct (deviceDiscovered_creates info t) as (t' & tr & Hrun & _ & Hk & _).
    exists t', tr. split; [ exact Hrun | ].
    rewrite deviceDiscovered_run in Hrun.
    destruct (Status_eqb (m_status t) Connecting
              && negb (Z.eqb (Z.land (coreConfigurations info)
                                LowEnergyCoreConfiguration) 0)
              && String.eqb (name info) "Timeular ZEI");
      [ destruct (m_controller t) eqn:Hc | ];
      inversion Hrun; subst; cbn; auto; discriminate.
  - destruct t as [st sd sv ct nd o]. cbn in Hen. destruct ct; [ | discriminate ].
    eexists. eexists. split; [ reflexivity | exact Hinv ].
  - destruct t as [st sd sv ct nd o]. cbn in Hen. destruct ct; [ | discriminate ].
    eexists. eexists. split; [ reflexivity | exact Hinv ].
  - destruct t as [st sd sv ct nd o]. cbn in Hen. destruct ct; [ | discriminate ].
    destruct st, sv; eexists; eexists;
      (split; [ reflexivity | cbn; discriminate ]).
  - unfold addLowEnergyService.
    destruct (N.eqb uuid zeiOrientationService);
      eexists; eexists; (split; [ reflexivity | exact Hinv ]).
  - destruct t as [st sd sv ct nd o]. cbn in Hen. destruct ct; [ | discriminate ].
    destruct sd, sv, created; eexists; eexists;
      (split; [ reflexivity | cbn; discriminate ]).
  - cbn in Hen. destruct (m_service t) as [s|] eqn:Hs; [ | discriminate ].
    assert (Hctl : m_controller t <> None) by (apply Hinv; discriminate).
    destruct newState;
      try (eexists; eexists;
           (split; [ reflexivity | intros _; exact Hctl ])).
    unfold serviceStateChanged. run_slot. rewrite Hs.
    destruct (characteristic s zeiOrientationCharacteristic) as [ch|].
    + cbn [m_notificationDesc set_notificationDesc].
      destruct (descriptor s ch clientCharacteristicConfiguration);
        cbn [QLowEnergyDescriptor_isValid]; rewrite !setStatus_run;
        eexists; eexists; (split; [ reflexivity | intros _; exact Hctl ]).
    + rewrite setStatus_run.
      eexists; eexists; (split; [ reflexivity | intros _; exact Hctl ]).
  - destruct (N.eqb (QLowEnergyCharacteristic_uuid c)
                zeiOrientationCharacteristic) eqn:Hc.
    + apply N.eqb_eq in Hc.
      destruct (constData_at_0 value) as (data & Hdata & Hrange).
      destruct (deviceDataChanged_run c value t data Hc Hdata Hrange)
        as (o & _ & Hrun).
      eexists. eexists. split; [ exact Hrun | exact Hinv ].
    + unfold deviceDataChanged. rewrite Hc.
      eexists. eexists. split; [ reflexivity | exact Hinv ].
  - cbn in Hen. destruct (m_service t) as [s|] eqn:Hs; [ | discriminate ].
    destruct (m_controller t) as [ctl|] eqn:Hctl;
      [ | exfalso; apply Hinv; [ discriminate | reflexivity ] ].
    unfold confirmedDescriptorWrite. run_slot.
    destruct (QLowEnergyDescriptor_isValid d
              && QLowEnergyDescriptor_eqb d (m_notificationDesc t)
              && QByteArray_eqb value fromHex_0000).
    + unfold on_controller, delete_m_service. run_slot. rewrite Hctl, Hs.
      eexists. eexists. split; [ reflexivity | cbn; congruence ].
    + eexists. eexists. split; [ reflexivity | rewrite Hs, Hctl; discriminate ].
Qed.

(** ** The target-service flag *)

(** C10: the flag starts false; a report of the orientation service
    UUID sets it; once true, no slot and no sequence of events
    (disconnect, service-scan-done and new discovery cycles included)
    clears it, so every later serviceScanDone with a controller held
    asks for the orientation service object as if the service had just
    been reported. *)
Theorem serviceDiscovered_flag_never_cleared :
  m_serviceDiscovered initial = false
  /\ (forall t,
        addLowEnergyService zeiOrientationService t
        = Some (tt, set_serviceDiscovered true t, []))
  /\ (forall e t t' tr,
        m_serviceDiscovered t = true ->
        dispatch e t = Some (tt, t', tr) ->
        m_serviceDiscovered t' = true)
  /\ (forall evs t t' tr,
        m_serviceDiscovered t = true ->
        run evs t = Some (tt, t', tr) ->
        m_serviceDiscovered t' = true)
  /\ (forall evs t t' tr created ctl,
        m_serviceDiscovered t = true ->
        run evs t = Some (tt, t', tr) ->
        m_controller t' = Some ctl ->
        exists tr',
          serviceScanDone created t' = Some (tt, set_service created t', tr')
          /\ In (createServiceObject zeiOrientationService) tr').
Proof.
  split; [ reflexivity | ].
  split; [ intros t; reflexivity | ].
  split; [ exact dispatch_keeps_flag | ].
  split; [ intros evs; exact (run_keeps_flag evs) | ].
  intros evs t t' tr created ctl Hflag Hrun Hctl.
  apply (serviceScanDone_flag_set created ctl t'); [ | exact Hctl ].
  exact (run_keeps_flag evs t t' tr Hflag Hrun).
Qed.

Lemma serviceDiscovered_flag_never_cleared_witness :
  m_serviceDiscovered streaming_face3 = true
  /\ exists t' tr,
       run second_cycle streaming_face3 = Some (tt, t', tr)
       /\ m_serviceDiscovered t' = true.
Proof.
  split; [ reflexivity | ].
  destruct (run second_cycle streaming_face3) as [[[u t'] tr]|] eqn:E.
  - destruct u. exists t', tr. split; [ reflexivity | ].
    exact (proj1 (proj2 (proj2 (proj2 serviceDiscovered_flag_never_cleared)))
             second_cycle streaming_face3 t' tr eq_refl E).
  - vm_compute in E. discriminate E.
Defined.

(** ** Whole sessions *)

Lemma initial_handles_consistent : handles_consistent initial.
Proof. intros H. exfalso. apply H. reflexivity. Qed.

(** The sample session ends streaming, having announced Connecting and
    then Connected, with one controller created and one scan started. *)
Example session_streams :
  exists tr,
    run session initial = Some (tt, streaming_face3, tr)
    /\ statuses_emitted tr = [Connecting; Connected]
    /\ orientations_emitted tr = [Face3]
    /\ scans_started tr = [LowEnergyMethod]
    /\ count_createCentral tr = 1%nat
    /\ descriptor_writes tr = [(zei_notificationDesc, [x01; x00])].
Proof.
  eexists. split; [ lazy; reflexivity | ]. repeat split.
Qed.

(** In the second cycle the service is asked for although the device
    did not report it, and the manager is left Connecting. *)
Example second_cycle_asks_for_service :
  exists t' tr,
    run second_cycle streaming_face3 = Some (tt, t', tr)
    /\ In (createServiceObject zeiOrientationService) tr
    /\ m_service t' = None
    /\ m_status t' = Connecting.
Proof.
  eexists. eexists. split; [ lazy; reflexivity | ].
  split; [ | split; reflexivity ].
  cbn. auto 20.
Qed.

(** ** Signals against state, over whole runs *)

Lemma last_default_irrelevant {A : Type} (a : list A) (x y : A) :
  a <> [] -> last a x = last a y.
Proof.
  induction a as [|z a IH]; intros Hne; [ congruence | ].
  destruct a as [|w a]; [ reflexivity | ].
  change (last (w :: a) x = last (w :: a) y). apply IH. discriminate.
Qed.

Lemma last_cons_default {A : Type} (x y : A) (a : list A) :
  last (y :: a) x = last a y.
Proof.
  destruct a as [|z a]; [ reflexivity | ].
  change (last (z :: a) x = last (z :: a) y).
  apply last_default_irrelevant. discriminate.
Qed.

Lemma changes_app {A : Type} (x : A) (a b : list A) :
  changes x a -> changes (last a x) b -> changes x (a ++ b).
Proof.
  revert x. induction a as [|y a IH]; intros x Ha Hb.
  - exact Hb.
  - destruct Ha as [Hy Ha]. split; [ exact Hy | ].
    apply IH; [ exact Ha | ].
    rewrite last_cons_default in Hb. exact Hb.
Qed.

Lemma last_app_default {A : Type} (x : A) (a b : list A) :
  last (a ++ b) x = last b (last a x).
Proof.
  revert x. induction a as [|y a IH]; intros x; [ reflexivity | ].
  rewrite <- app_comm_cons, !last_cons_default. apply IH.
Qed.

Lemma statuses_emitted_app (a b : Trace) :
  statuses_emitted (a ++ b) = statuses_emitted a ++ statuses_emitted b.
Proof.
  induction a as [|e a IH]; [ reflexivity | ].
  destruct e; cbn; rewrite ?IH; reflexivity.
Qed.

Lemma orientations_emitted_app (a b : Trace) :
  orientations_emitted (a ++ b)
  = orientations_emitted a ++ orientations_emitted b.
Proof.
  induction a as [|e a IH]; [ reflexivity | ].
  destruct e; cbn; rewrite ?IH; reflexivity.
Qed.

Lemma scans_started_app (a b : Trace) :
  scans_started (a ++ b) = scans_started a ++ scans_started b.
Proof.
  induction a as [|e a IH]; [ reflexivity | ].
  destruct e; cbn; rewrite ?IH; reflexivity.
Qed.

Lemma descriptor_writes_app (a b : Trace) :
  descriptor_writes (a ++ b) = descriptor_writes a ++ descriptor_writes b.
Proof.
  induction a as [|e a IH]; [ reflexivity | ].
  destruct e; cbn; rewrite ?IH; reflexivity.
Qed.

Lemma Orientation_of_Z_some (n : Z) (o : Orientation) :
  Orientation_of_Z n = Some o -> Orientation_to_Z o = n.
Proof.
  destruct n as [|p|p]; cbn; try discriminate.
  - intros H. inversion H. reflexivity.
  - do 4 (try (destruct p as [p|p|]; cbn; try discriminate));
      intros H; inversion H; reflexivity.
Qed.

(** One slot: the statuses it announces are real changes and end on
    the status it leaves. *)
Lemma dispatch_status_signals (e : Event) (t t' : TimeularManager)
  (tr : Trace) :
  dispatch e t = Some (tt, t', tr) ->
  changes (m_status t) (statuses_emitted tr)
  /\ last (statuses_emitted tr) (m_status t) = m_status t'.
Proof.
  intros H. destruct t as [st sd sv ct nd o].
  destruct e; slot_paths H; destruct st; cbn in *; try congruence;
    repeat split; try discriminate; reflexivity.
Qed.

(** X1: over any sequence of events, every statusChanged announces a
    status different from the one before it, and the last one announced
    (or the starting status, if none) is the status the manager ends
    with: a listener of the signal always knows the status. *)
Theorem statusChanged_tracks_status (evs : list Event) :
  forall t t' tr,
    run evs t = Some (tt, t', tr) ->
    changes (m_status t) (statuses_emitted tr)
    /\ last (statuses_emitted tr) (m_status t) = m_status t'.
Proof.
  induction evs as [|e rest IH]; intros t t' tr Hrun.
  - inversion Hrun; subst. split; [ exact I | reflexivity ].
  - apply run_cons_inv in Hrun.
    destruct Hrun as (t1 & tr1 & tr2 & Hstep & Hrest & ->).
    destruct (dispatch_status_signals e t t1 tr1 Hstep) as [Hc1 Hl1].
    destruct (IH t1 t' tr2 Hrest) as [Hc2 Hl2].
    rewrite statuses_emitted_app, last_app_default, Hl1. split.
    + apply changes_app; [ exact Hc1 | rewrite Hl1; exact Hc2 ].
    + exact Hl2.
Qed.

Lemma statusChanged_tracks_status_witness :
  exists t' tr,
    run session initial = Some (tt, t', tr)
    /\ changes (m_status initial) (statuses_emitted tr)
    /\ last (statuses_emitted tr) (m_status initial) = m_status t'.
Proof.
  destruct (run session initial) as [[[[] t'] tr]|] eqn:E.
  - exists t', tr. split; [ reflexivity | ].
    exact (statusChanged_tracks_status session initial t' tr E).
  - vm_compute in E. discriminate E.
Defined.

(** One slot: the orientations it announces are real changes and end
    on the orientation it leaves. *)
Lemma dispatch_orientation_signals (e : Event) (t t' : TimeularManager)
  (tr : Trace) :
  dispatch e t = Some (tt, t', tr) ->
  changes (m_orientation t) (orientations_emitted tr)
  /\ last (orientations_emitted tr) (m_orientation t) = m_orientation t'.
Proof.
  intros H. destruct t as [st sd sv ct nd o].
  destruct e; slot_paths H; cbn;
    try (split; [ exact I | reflexivity ]).
  all: match goal with
       | E : Orientation_of_Z _ = Some _ |- _ =>
           apply Orientation_of_Z_some in E
       end.
  all: match goal with
       | N : negb (Z.eqb _ _) = true |- _ =>
           apply negb_true_iff, Z.eqb_neq in N; cbn [m_orientation] in N
       end.
  all: split; [ split; [ congruence | exact I ] | reflexivity ].
Qed.

(** X2: over any sequence of events, every orientationChanged
    announces an orientation different from the one before it, and the
    last one announced (or the starting orientation, if none) is the
    orientation the manager ends with. *)
Theorem orientationChanged_tracks_orientation (evs : list Event) :
  forall t t' tr,
    run evs t = Some (tt, t', tr) ->
    changes (m_orientation t) (orientations_emitted tr)
    /\ last (orientations_emitted tr) (m_orientation t) = m_orientation t'.
Proof.
  induction evs as [|e rest IH]; intros t t' tr Hrun.
  - inversion Hrun; subst. split; [ exact I | reflexivity ].
  - apply run_cons_inv in Hrun.
    destruct Hrun as (t1 & tr1 & tr2 & Hstep & Hrest & ->).
    destruct (dispatch_orientation_signals e t t1 tr1 Hstep) as [Hc1 Hl1].
    destruct (IH t1 t' tr2 Hrest) as [Hc2 Hl2].
    rewrite orientations_emitted_app, last_app_default, Hl1. split.
    + apply changes_app; [ exact Hc1 | rewrite Hl1; exact Hc2 ].
    + exact Hl2.
Qed.

Lemma orientationChanged_tracks_orientation_witness :
  exists t' tr,
    run session initial = Some (tt, t', tr)
    /\ changes (m_orientation initial) (orientations_emitted tr)
    /\ last (orientations_emitted tr) (m_orientation initial)
       = m_orientation t'.
Proof.
  destruct (run session initial) as [[[[] t'] tr]|] eqn:E.
  - exists t', tr. split; [ reflexivity | ].
    exact (orientationChanged_tracks_orientation session initial t' tr E).
  - vm_compute in E. discriminate E.
Defined.

(** ** Scanning *)

(** X3: when a scan finishes, a new one is started only if no service
    is held and the status is Disconneted; while the status is
    Connecting or Connected the finished scan changes nothing, so a
    scan that found no device is not restarted. *)
Theorem scanFinished_restarts_only_when_disconnected (t : TimeularManager) :
  (m_status t <> Disconneted -> scanFinished t = Some (tt, t, []))
  /\ (m_service t <> None -> scanFinished t = Some (tt, t, []))
  /\ (m_status t = Disconneted -> m_service t = None ->
      scanFinished t
      = Some (tt, set_status Connecting t,
              [qDebug "Starting Discovery";
               emit_statusChanged Connecting;
               agent_start LowEnergyMethod]))
  /\ exists t1 tr1,
       startDiscovery t = Some (tt, t1, tr1)
       /\ scanFinished t1 = Some (tt, t1, []).
Proof.
  destruct t as [st sd sv ct nd o].
  unfold scanFinished, startDiscovery, setStatus. run_slot.
  cbn [m_status m_service].
  split; [ | split; [ | split ] ].
  - intros Hst. destruct sv; [ reflexivity | ].
    destruct st; [ congruence | reflexivity | reflexivity ].
  - intros Hsv. destruct sv; [ reflexivity | congruence ].
  - intros -> ->. reflexivity.
  - destruct st, sv; eexists; eexists; split; reflexivity.
Qed.

Lemma scanFinished_restarts_only_when_disconnected_witness :
  m_status (set_status Connecting initial) <> Disconneted
  /\ scanFinished (set_status Connecting initial)
     = Some (tt, set_status Connecting initial, []).
Proof.
  assert (H : m_status (set_status Connecting initial) <> Disconneted)
    by discriminate.
  split; [ exact H | ].
  exact (proj1 (scanFinished_restarts_only_when_disconnected
                  (set_status Connecting initial)) H).
Defined.

(** One slot: it starts a scan exactly when it announces Connecting,
    and only a low-energy one. *)
Lemma dispatch_scans (e : Event) (t t' : TimeularManager) (tr : Trace) :
  dispatch e t = Some (tt, t', tr) ->
  List.length (scans_started tr)
  = List.length (filter is_Connecting (statuses_emitted tr))
  /\ Forall (eq LowEnergyMethod) (scans_started tr).
Proof.
  intros H. destruct t as [st sd sv ct nd o].
  destruct e; slot_paths H; destruct st; cbn in *; try congruence;
    split; try reflexivity; repeat constructor.
Qed.

(** X4: over any sequence of events, the scans started are as many as
    the statusChanged(Connecting) announcements, and every one of them
    is a low-energy scan: no scan starts while Connecting or
    Connected. *)
Theorem scans_match_connecting (evs : list Event) :
  forall t t' tr,
    run evs t = Some (tt, t', tr) ->
    List.length (scans_started tr)
    = List.length (filter is_Connecting (statuses_emitted tr))
    /\ Forall (eq LowEnergyMethod) (scans_started tr).
Proof.
  induction evs as [|e rest IH]; intros t t' tr Hrun.
  - inversion Hrun; subst. split; [ reflexivity | constructor ].
  - apply run_cons_inv in Hrun.
    destruct Hrun as (t1 & tr1 & tr2 & Hstep & Hrest & ->).
    destruct (dispatch_scans e t t1 tr1 Hstep) as [Hn1 Hf1].
    destruct (IH t1 t' tr2 Hrest) as [Hn2 Hf2].
    rewrite scans_started_app, statuses_emitted_app, filter_app,
      !length_app, Hn1, Hn2.
    split; [ reflexivity | ]. apply Forall_app. split; assumption.
Qed.

Lemma scans_match_connecting_witness :
  exists t' tr,
    run (session ++ second_cycle) initial = Some (tt, t', tr)
    /\ List.length (scans_started tr)
       = List.length (filter is_Connecting (statuses_emitted tr))
    /\ Forall (eq LowEnergyMethod) (scans_started tr).
Proof.
  destruct (run (session ++ second_cycle) initial)
    as [[[[] t'] tr]|] eqn:E.
  - exists t', tr. split; [ reflexivity | ].
    exact (scans_match_connecting (session ++ second_cycle) initial t' tr E).
  - vm_compute in E. discriminate E.
Defined.

(** X15: whatever the state, a disconnected event followed by
    startDiscovery starts a low-energy scan and leaves the manager
    Connecting with no service held: discovery can always be restarted
    after a disconnect. *)
Theorem startDiscovery_after_disconnect (t : TimeularManager) :
  exists t' tr,
    run [EvDisconnected; EvStartDiscovery] t = Some (tt, t', tr)
    /\ t' = set_service None (set_status Connecting t)
    /\ scans_started tr = [LowEnergyMethod]
    /\ last (statuses_emitted tr) (m_status t) = Connecting.
Proof.
  destruct t as [st sd sv ct nd o].
  destruct st, sv; eexists; eexists;
    (split; [ lazy; reflexivity | ]); repeat split.
Qed.

(** ** The controller *)

(** One slot keeps a controller that is held, and creates one only
    when none is held. *)
Lemma dispatch_controller (e : Event) (t t' : TimeularManager) (tr : Trace) :
  dispatch e t = Some (tt, t', tr) ->
  (forall ctl, m_controller t = Some ctl -> m_controller t' = Some ctl)
  /\ (count_createCentral tr
      <= match m_controller t with Some _ => 0 | None => 1 end)%nat
  /\ (count_createCentral tr = 1%nat -> m_controller t' <> None).
Proof.
  intros H. destruct t as [st sd sv ct nd o].
  destruct e; slot_paths H; cbn in *; subst;
    repeat split; try congruence; try lia; auto.
Qed.

(** X5: a controller, once held, is never replaced nor released: after
    any sequence of events the manager holds the same controller. *)
Theorem controller_never_replaced (evs : list Event) :
  forall t t' tr ctl,
    m_controller t = Some ctl ->
    run evs t = Some (tt, t', tr) ->
    m_controller t' = Some ctl /\ count_createCentral tr = 0%nat.
Proof.
  induction evs as [|e rest IH]; intros t t' tr ctl Hctl Hrun.
  - inversion Hrun; subst. split; [ exact Hctl | reflexivity ].
  - apply run_cons_inv in Hrun.
    destruct Hrun as (t1 & tr1 & tr2 & Hstep & Hrest & ->).
    destruct (dispatch_controller e t t1 tr1 Hstep) as (Hk & Hc & _).
    rewrite Hctl in Hc.
    destruct (IH t1 t' tr2 ctl (Hk ctl Hctl) Hrest) as [Hk2 Hc2].
    split; [ exact Hk2 | ]. rewrite count_createCentral_app. lia.
Qed.

Lemma controller_never_replaced_witness :
  m_controller streaming_face3 = Some zei_controller
  /\ exists t' tr,
       run second_cycle streaming_face3 = Some (tt, t', tr)
       /\ m_controller t' = Some zei_controller
       /\ count_createCentral tr = 0%nat.
Proof.
  split; [ reflexivity | ].
  destruct (run second_cycle streaming_face3) as [[[[] t'] tr]|] eqn:E.
  - exists t', tr. split; [ reflexivity | ].
    exact (controller_never_replaced second_cycle streaming_face3 t' tr
             zei_controller eq_refl E).
  - vm_compute in E. discriminate E.
Defined.

(** X6: over any sequence of events of any kind, starting anywhere, at
    most one controller is created. *)
Theorem createCentral_at_most_once (evs : list Event) :
  forall t t' tr,
    run evs t = Some (tt, t', tr) ->
    (count_createCentral tr
     <= match m_controller t with Some _ => 0 | None => 1 end)%nat.
Proof.
  induction evs as [|e rest IH]; intros t t' tr Hrun.
  - inversion Hrun; subst. cbn. destruct (m_controller t'); lia.
  - apply run_cons_inv in Hrun.
    destruct Hrun as (t1 & tr1 & tr2 & Hstep & Hrest & ->).
    destruct (dispatch_controller e t t1 tr1 Hstep) as (Hk & Hc & Hnew).
    pose proof (IH t1 t' tr2 Hrest) as Hc2.
    rewrite count_createCentral_app.
    destruct (m_controller t) as [ctl|] eqn:Hctl.
    + rewrite (Hk ctl eq_refl) in Hc2. lia.
    + destruct (m_controller t1) eqn:Hctl1; [ lia | ].
      assert (count_createCentral tr1 <> 1%nat)
        by (intros H1; apply Hnew in H1; congruence).
      lia.
Qed.

Lemma createCentral_at_most_once_witness :
  exists t' tr,
    run (session ++ second_cycle) initial = Some (tt, t', tr)
    /\ (count_createCentral tr
        <= match m_controller initial with Some _ => 0 | None => 1 end)%nat.
Proof.
  destruct (run (session ++ second_cycle) initial)
    as [[[[] t'] tr]|] eqn:E.
  - exists t', tr. split; [ reflexivity | ].
    exact (createCentral_at_most_once (session ++ second_cycle) initial
             t' tr E).
  - vm_compute in E. discriminate E.
Defined.

(** ** Null pointers *)

(** X7: if a service is only held together with a controller, and
    every event comes from an object that exists when it is delivered,
    then no slot of the sequence dereferences a null pointer, reads out
    of bounds or casts a non-enumerator: the run completes, and a
    service is still only held together with a controller. *)
Theorem run_never_faults (evs : list Event) :
  forall t,
    handles_consistent t ->
    live evs t = true ->
    exists t' tr,
      run evs t = Some (tt, t', tr) /\ handles_consistent t'.
Proof.
  induction evs as [|e rest IH]; intros t Hinv Hlive.
  - exists t, []. split; [ reflexivity | exact Hinv ].
  - cbn [live] in Hlive. apply andb_true_iff in Hlive.
    destruct Hlive as [Hen Hrest].
    destruct (dispatch_safe e t Hinv Hen) as (t1 & tr1 & Hstep & Hinv1).
    rewrite Hstep in Hrest.
    destruct (IH t1 Hinv1 Hrest) as (t2 & tr2 & Hrun & Hinv2).
    exists t2, (tr1 ++ tr2). split; [ | exact Hinv2 ].
    cbn [run]. unfold bind. rewrite Hstep, Hrun. reflexivity.
Qed.

Lemma run_never_faults_witness :
  handles_consistent initial
  /\ live (session ++ second_cycle) initial = true
  /\ exists t' tr,
       run (session ++ second_cycle) initial = Some (tt, t', tr)
       /\ handles_consistent t'.
Proof.
  assert (Hinv : handles_consistent initial)
    by (intros H; exfalso; apply H; reflexivity).
  assert (Hlive : live (session ++ second_cycle) initial = true)
    by (vm_compute; reflexivity).
  split; [ exact Hinv | ]. split; [ exact Hlive | ].
  exact (run_never_faults (session ++ second_cycle) initial Hinv Hlive).
Defined.

(** ** Which slot changes what *)

(** X9: a slot that changes the status is one of few.  Connecting is
    entered only from Disconneted, by startDiscovery or by a finished
    scan; Connected only by the service reaching ServiceDiscovered;
    Disconneted only by the disconnected event or by the service
    reaching ServiceDiscovered.  No other event (errors, connection,
    service reports, service-scan-done, notifications, descriptor
    writes) changes the status. *)
Theorem status_changes_only_by (e : Event) (t t' : TimeularManager)
  (tr : Trace) :
  dispatch e t = Some (tt, t', tr) ->
  m_status t' <> m_status t ->
  match m_status t' with
  | Connecting =>
      m_status t = Disconneted
      /\ (e = EvStartDiscovery \/ e = EvScanFinished)
  | Connected => e = EvStateChanged ServiceDiscovered
  | Disconneted =>
      e = EvDisconnected \/ e = EvStateChanged ServiceDiscovered
  end.
Proof.
  intros H Hne. destruct t as [st sd sv ct nd o].
  destruct e; slot_paths H; destruct st; cbn in *; try congruence; auto.
Qed.

Lemma status_changes_only_by_witness :
  exists t' tr,
    dispatch EvStartDiscovery initial = Some (tt, t', tr)
    /\ m_status t' <> m_status initial
    /\ match m_status t' with
       | Connecting =>
           m_status initial = Disconneted
           /\ (EvStartDiscovery = EvStartDiscovery
               \/ EvStartDiscovery = EvScanFinished)
       | Connected => EvStartDiscovery = EvStateChanged ServiceDiscovered
       | Disconneted =>
           EvStartDiscovery = EvDisconnected
           \/ EvStartDiscovery = EvStateChanged ServiceDiscovered
       end.
Proof.
  destruct (dispatch EvStartDiscovery initial) as [[[[] t'] tr]|] eqn:E.
  - assert (Hne : m_status t' <> m_status initial).
    { vm_compute in E. inversion E. discriminate. }
    exists t', tr. split; [ reflexivity | ]. split; [ exact Hne | ].
    exact (status_changes_only_by EvStartDiscovery initial t' tr E Hne).
  - vm_compute in E. discriminate E.
Defined.

(** X8: the stored orientation is changed by nothing but a
    notification on the orientation characteristic. *)
Theorem orientation_changes_only_by (e : Event) (t t' : TimeularManager)
  (tr : Trace) :
  dispatch e t = Some (tt, t', tr) ->
  m_orientation t' <> m_orientation t ->
  exists c value,
    e = EvCharacteristicChanged c value
    /\ QLowEnergyCharacteristic_uuid c = zeiOrientationCharacteristic.
Proof.
  intros H Hne. destruct t as [st sd sv ct nd o].
  destruct e; slot_paths H; cbn in Hne; try congruence.
  all: exists c, value; split; [ reflexivity | ].
  all: match goal with
       | E : negb (N.eqb _ _) = false |- _ =>
           apply negb_false_iff, N.eqb_eq in E; exact E
       end.
Qed.

Lemma orientation_changes_only_by_witness :
  exists t' tr,
    dispatch (EvCharacteristicChanged (Some orientation_char) [x05])
      streaming_face3 = Some (tt, t', tr)
    /\ m_orientation t' <> m_orientation streaming_face3
    /\ exists c value,
         EvCharacteristicChanged (Some orientation_char) [x05]
         = EvCharacteristicChanged c value
         /\ QLowEnergyCharacteristic_uuid c = zeiOrientationCharacteristic.
Proof.
  destruct (dispatch (EvCharacteristicChanged (Some orientation_char) [x05])
              streaming_face3) as [[[[] t'] tr]|] eqn:E.
  - assert (Hne : m_orientation t' <> m_orientation streaming_face3).
    { vm_compute in E. inversion E. discriminate. }
    exists t', tr. split; [ reflexivity | ]. split; [ exact Hne | ].
    exact (orientation_changes_only_by _ streaming_face3 t' tr E Hne).
  - vm_compute in E. discriminate E.
Defined.

(** X14: the service pointer is changed by three slots only: the
    disconnected event and a confirmed descriptor write null it, and
    service-scan-done sets it to what createServiceObject answered
    when the target-service flag is set, to null otherwise. *)
Theorem service_changes_only_by (e : Event) (t t' : TimeularManager)
  (tr : Trace) :
  dispatch e t = Some (tt, t', tr) ->
  m_service t' <> m_service t ->
  match e with
  | EvDisconnected | EvDescriptorWritten _ _ => m_service t' = None
  | EvDiscoveryFinished created =>
      m_service t' = if m_serviceDiscovered t then created else None
  | _ => False
  end.
Proof.
  intros H Hne. destruct t as [st sd sv ct nd o].
  destruct e; slot_paths H; cbn in *; subst; try congruence; reflexivity.
Qed.

Lemma service_changes_only_by_witness :
  exists t' tr,
    dispatch EvDisconnected streaming_face3 = Some (tt, t', tr)
    /\ m_service t' <> m_service streaming_face3
    /\ m_service t' = None.
Proof.
  destruct (dispatch EvDisconnected streaming_face3)
    as [[[[] t'] tr]|] eqn:E.
  - assert (Hne : m_service t' <> m_service streaming_face3).
    { vm_compute in E. inversion E. discriminate. }
    exists t', tr. split; [ reflexivity | ]. split; [ exact Hne | ].
    exact (service_changes_only_by EvDisconnected streaming_face3 t' tr
             E Hne).
  - vm_compute in E. discriminate E.
Defined.

(** ** More on notifications *)

(** X10: the notification handler reads the first byte only: bytes
    after it never matter, and an empty payload is handled exactly as
    the one-byte payload 00; this holds for every characteristic. *)
Theorem deviceDataChanged_reads_first_byte_only
  (c : QLowEnergyCharacteristic) (t : TimeularManager) :
  (forall b rest,
      deviceDataChanged c (b :: rest) t = deviceDataChanged c [b] t)
  /\ deviceDataChanged c [] t = deviceDataChanged c [x00] t.
Proof.
  split; [ intros b rest | ]; unfold deviceDataChanged;
    destruct (negb (N.eqb (QLowEnergyCharacteristic_uuid c)
                      zeiOrientationCharacteristic)); reflexivity.
Qed.

(** X11: delivering the same payload twice on the orientation
    characteristic announces at most one change: the second delivery
    emits nothing and leaves the manager as the first one left it. *)
Theorem deviceDataChanged_repeat_is_silent
  (c : QLowEnergyCharacteristic) (value : QByteArray) (t : TimeularManager) :
  QLowEnergyCharacteristic_uuid c = zeiOrientationCharacteristic ->
  exists t1 tr1 tr2,
    deviceDataChanged c value t = Some (tt, t1, tr1)
    /\ deviceDataChanged c value t1 = Some (tt, t1, tr2)
    /\ orientations_emitted tr2 = []
    /\ (List.length (orientations_emitted (tr1 ++ tr2)) <= 1)%nat.
Proof.
  intros Hc.
  destruct (constData_at_0 value) as (data & Hdata & Hrange).
  destruct (deviceDataChanged_run c value t data Hc Hdata Hrange)
    as (o & Ho & Hrun).
  destruct (deviceDataChanged_run c value (set_orientation o t) data Hc
              Hdata Hrange) as (o' & Ho' & Hrun').
  assert (Heq : o' = o)
    by (apply Orientation_to_Z_inj; congruence).
  subst o'. cbn [m_orientation set_orientation] in Hrun'.
  rewrite Z.eqb_refl in Hrun'.
  assert (Hsame : set_orientation o (set_orientation o t)
                  = set_orientation o t) by reflexivity.
  rewrite Hsame in Hrun'.
  eexists. eexists. eexists.
  split; [ exact Hrun | ]. split; [ exact Hrun' | ].
  split; [ reflexivity | ].
  rewrite orientations_emitted_app. cbn.
  destruct (Z.eqb (Orientation_to_Z o) (Orientation_to_Z (m_orientation t)));
    cbn; lia.
Qed.

Lemma deviceDataChanged_repeat_is_silent_witness :
  QLowEnergyCharacteristic_uuid (Some orientation_char)
  = zeiOrientationCharacteristic
  /\ exists t1 tr1 tr2,
       deviceDataChanged (Some orientation_char) [x07] streaming_face3
       = Some (tt, t1, tr1)
       /\ deviceDataChanged (Some orientation_char) [x07] t1
          = Some (tt, t1, tr2)
       /\ orientations_emitted tr2 = []
       /\ (List.length (orientations_emitted (tr1 ++ tr2)) <= 1)%nat.
Proof.
  split; [ reflexivity | ].
  exact (deviceDataChanged_repeat_is_silent (Some orientation_char) [x07]
           streaming_face3 eq_refl).
Defined.

(** ** Descriptor writes *)

(** One slot writes nothing to a descriptor but the bytes 01 00, and
    only to a valid descriptor. *)
Lemma dispatch_writes (e : Event) (t t' : TimeularManager) (tr : Trace) :
  dispatch e t = Some (tt, t', tr) ->
  Forall enables_notifications (descriptor_writes tr).
Proof.
  intros H. destruct t as [st sd sv ct nd o].
  destruct e; slot_paths H; cbn; repeat constructor; cbn.
  all: lazymatch goal with
       | E : QLowEnergyDescriptor_isValid _ = true |- _ =>
           cbn [m_notificationDesc set_notificationDesc] in E;
           intros Hd; rewrite Hd in E; cbn in E; discriminate E
       end.
Qed.

(** X12: over any sequence of events, every descriptor write the
    manager requests is the bytes 01 00 to a valid descriptor: it never
    writes 00 00 itself and never writes to an invalid descriptor. *)
Theorem only_enable_writes (evs : list Event) :
  forall t t' tr,
    run evs t = Some (tt, t', tr) ->
    Forall enables_notifications (descriptor_writes tr).
Proof.
  induction evs as [|e rest IH]; intros t t' tr Hrun.
  - inversion Hrun; subst. constructor.
  - apply run_cons_inv in Hrun.
    destruct Hrun as (t1 & tr1 & tr2 & Hstep & Hrest & ->).
    rewrite descriptor_writes_app. apply Forall_app. split.
    + exact (dispatch_writes e t t1 tr1 Hstep).
    + exact (IH t1 t' tr2 Hrest).
Qed.

Lemma only_enable_writes_witness :
  exists t' tr,
    run session initial = Some (tt, t', tr)
    /\ Forall enables_notifications (descriptor_writes tr).
Proof.
  destruct (run session initial) as [[[[] t'] tr]|] eqn:E.
  - exists t', tr. split; [ reflexivity | ].
    exact (only_enable_writes session initial t' tr E).
  - vm_compute in E. discriminate E.
Defined.

(** ** More on the target-service flag and the service *)

Lemma dispatch_flag (e : Event) (t t' : TimeularManager) (tr : Trace) :
  dispatch e t = Some (tt, t', tr) ->
  m_serviceDiscovered t' = m_serviceDiscovered t || reports_service e.
Proof.
  intros H. destruct t as [st sd sv ct nd o].
  destruct e; slot_paths H; cbn; rewrite ?orb_false_r; try reflexivity;
    try (cbn [m_serviceDiscovered] in *; congruence);
    match goal with
    | E : N.eqb _ _ = _ |- _ => rewrite E
    end; rewrite ?orb_true_r, ?orb_false_r; reflexivity.
Qed.

(** X13: after any sequence of events the target-service flag is set
    exactly when it was set before or one of the events reported the
    orientation service UUID; reports of other UUIDs never set it. *)
Theorem flag_set_exactly_by_report (evs : list Event) :
  forall t t' tr,
    run evs t = Some (tt, t', tr) ->
    m_serviceDiscovered t'
    = m_serviceDiscovered t || existsb reports_service evs.
Proof.
  induction evs as [|e rest IH]; intros t t' tr Hrun.
  - inversion Hrun; subst. cbn. rewrite orb_false_r. reflexivity.
  - apply run_cons_inv in Hrun.
    destruct Hrun as (t1 & tr1 & tr2 & Hstep & Hrest & ->).
    rewrite (IH t1 t' tr2 Hrest), (dispatch_flag e t t1 tr1 Hstep).
    cbn [existsb]. rewrite orb_assoc. reflexivity.
Qed.

Lemma flag_set_exactly_by_report_witness :
  exists t' tr,
    run session initial = Some (tt, t', tr)
    /\ m_serviceDiscovered t'
       = m_serviceDiscovered initial || existsb reports_service session.
Proof.
  destruct (run session initial) as [[[[] t'] tr]|] eqn:E.
  - exists t', tr. split; [ reflexivity | ].
    exact (flag_set_exactly_by_report session initial t' tr E).
  - vm_compute in E. discriminate E.
Defined.

(** X16: when serviceScanDone returns, the service held before has
    been deleted, the service held afterwards is what
    createServiceObject answered if the flag is set and none
    otherwise, discoverDetails is called exactly when a service is
    held afterwards, and "Service not found" is logged exactly when
    none is. *)
Theorem serviceScanDone_outcome (created : option QLowEnergyService)
  (t t' : TimeularManager) (tr : Trace) :
  serviceScanDone created t = Some (tt, t', tr) ->
  t' = set_service (if m_serviceDiscovered t then created else None) t
  /\ (forall s, m_service t = Some s -> In (delete_service s) tr)
  /\ (In discoverDetails tr <-> m_service t' <> None)
  /\ (In (qDebug "Service not found") tr <-> m_service t' = None).
Proof.
  intros H. destruct t as [st sd sv ct nd o].
  destruct sd, sv as [s0|], ct as [c0|], created as [s1|];
    cbv in H; try discriminate H; inversion H; subst; clear H;
    (split; [ reflexivity | ]);
    (split; [ intros s Hs; cbv in Hs; inversion Hs; subst; cbn; auto 10 | ]);
    cbn [m_service set_service];
    split; split; intros Hx; cbn in *; try discriminate; try congruence;
    auto 10; intuition discriminate.
Qed.

Lemma serviceScanDone_outcome_witness :
  exists t' tr,
    serviceScanDone None streaming_face3 = Some (tt, t', tr)
    /\ t' = set_service None streaming_face3
    /\ In (delete_service zei_service) tr
    /\ (In (qDebug "Service not found") tr <-> m_service t' = None).
Proof.
  destruct (serviceScanDone None streaming_face3)
    as [[[[] t'] tr]|] eqn:E.
  - destruct (serviceScanDone_outcome None streaming_face3 t' tr E)
      as (Ht & Hdel & _ & Hlog).
    exists t', tr. split; [ reflexivity | ]. split; [ exact Ht | ].
    split; [ exact (Hdel zei_service eq_refl) | exact Hlog ].
  - vm_compute in E. discriminate E.
Defined.

(** ** Status changes *)

(** X17: setting the status announces it exactly when it differs from
    the current one, and setting the same status again right away
    changes and announces nothing more. *)
Theorem setStatus_idempotent (status : Status) (t : TimeularManager) :
  exists tr,
    setStatus status t = Some (tt, set_status status t, tr)
    /\ statuses_emitted tr
       = (if Status_eqb status (m_status t) then [] else [status])
    /\ (setStatus status ;; setStatus status) t
       = Some (tt, set_status status t, tr).
Proof.
  exists (statusChanged_trace (m_status t) status).
  split; [ apply setStatus_run | ]. split.
  - unfold statusChanged_trace.
    destruct (Status_eqb status (m_status t)); reflexivity.
  - unfold bind. rewrite !setStatus_run.
    destruct t as [st sd sv ct nd o].
    destruct status, st; reflexivity.
Qed.

(** Out of Disconneted, a slot other than the disconnected event and
    the service reaching ServiceDiscovered keeps the status and starts
    no scan. *)
Lemma dispatch_keeps_session (e : Event) (t t' : TimeularManager)
  (tr : Trace) :
  ends_session e = false ->
  m_status t <> Disconneted ->
  dispatch e t = Some (tt, t', tr) ->
  m_status t' = m_status t
  /\ statuses_emitted tr = []
  /\ scans_started tr = [].
Proof.
  intros He Hst H. destruct t as [st sd sv ct nd o].
  destruct e; try discriminate He; slot_paths H; destruct st;
    cbn in *; try congruence; repeat split.
Qed.

(** X18: once the status is Connecting or Connected, no sequence of
    events without a disconnected event and without the service
    reaching ServiceDiscovered changes it, announces a status or starts
    a scan; in particular startDiscovery, finished scans, errors and a
    service-scan-done that finds no service leave a manager that is
    Connecting in Connecting. *)
Theorem session_ends_only_by (evs : list Event) :
  forall t t' tr,
    forallb (fun e => negb (ends_session e)) evs = true ->
    m_status t <> Disconneted ->
    run evs t = Some (tt, t', tr) ->
    m_status t' = m_status t
    /\ statuses_emitted tr = []
    /\ scans_started tr = [].
Proof.
  induction evs as [|e rest IH]; intros t t' tr Hall Hst Hrun.
  - inversion Hrun; subst. repeat split.
  - apply run_cons_inv in Hrun.
    destruct Hrun as (t1 & tr1 & tr2 & Hstep & Hrest & ->).
    cbn [forallb] in Hall. apply andb_true_iff in Hall.
    destruct Hall as [He Hall]. apply negb_true_iff in He.
    destruct (dispatch_keeps_session e t t1 tr1 He Hst Hstep)
      as (Hs1 & He1 & Hc1).
    assert (Hst1 : m_status t1 <> Disconneted) by congruence.
    destruct (IH t1 t' tr2 Hall Hst1 Hrest) as (Hs2 & He2 & Hc2).
    rewrite statuses_emitted_app, scans_started_app, He1, He2, Hc1, Hc2.
    split; [ congruence | split; reflexivity ].
Qed.

Lemma session_ends_only_by_witness :
  exists t' tr,
    forallb (fun e => negb (ends_session e)) stalled_events = true
    /\ m_status connecting_state <> Disconneted
    /\ run stalled_events connecting_state = Some (tt, t', tr)
    /\ m_status t' = Connecting
    /\ scans_started tr = [].
Proof.
  destruct (run stalled_events connecting_state)
    as [[[[] t'] tr]|] eqn:E.
  - assert (Hst : m_status connecting_state <> Disconneted) by discriminate.
    destruct (session_ends_only_by stalled_events connecting_state t' tr
                eq_refl Hst E) as (Hs & _ & Hc).
    exists t', tr. split; [ reflexivity | ]. split; [ exact Hst | ].
    split; [ reflexivity | ]. split; [ exact Hs | exact Hc ].
  - vm_compute in E. discriminate E.
Defined.

(** ** Where the slots fault *)

(** With a service held, [serviceStateChanged] returns. *)
Lemma serviceStateChanged_some (s : QLowEnergyService) (t : TimeularManager) :
  m_service t = Some s ->
  exists t' tr, serviceStateChanged ServiceDiscovered t = Some (tt, t', tr).
Proof.
  intros Hs. unfold serviceStateChanged. run_slot. rewrite Hs.
  destruct (characteristic s zeiOrientationCharacteristic) as [ch|].
  - cbn [m_notificationDesc set_notificationDesc].
    destruct (descriptor s ch clientCharacteristicConfiguration);
      cbn [QLowEnergyDescriptor_isValid]; rewrite !setStatus_run;
      eexists; eexists; reflexivity.
  - rewrite setStatus_run. eexists. eexists. reflexivity.
Qed.


(** X19: the slots fault on null pointers only, and exactly here:
    deviceConnected and errorReceived without a controller;
    serviceScanDone with the flag set and no controller;
    serviceStateChanged(ServiceDiscovered) without a service;
    confirmedDescriptorWrite of 00 00 to the valid notification
    descriptor without a controller.  startDiscovery, finished scans,
    deviceDiscovered, deviceDisconnected, addLowEnergyService and
    deviceDataChanged (whatever the payload) never fault. *)
Theorem dispatch_faults_exactly (e : Event) (t : TimeularManager) :
  dispatch e t = None
  <-> match e with
      | EvConnected | EvError _ => m_controller t = None
      | EvDiscoveryFinished _ =>
          m_serviceDiscovered t = true /\ m_controller t = None
      | EvStateChanged newState =>
          newState = ServiceDiscovered /\ m_service t = None
      | EvDescriptorWritten d value =>
          d <> None /\ d = m_notificationDesc t /\ value = [x00; x00]
          /\ m_controller t = None
      | EvStartDiscovery | EvScanFinished | EvDeviceDiscovered _
      | EvDisconnected | EvServiceDiscovered _
      | EvCharacteristicChanged _ _ => False
      end.
Proof.
  destruct e; cbn [dispatch].
  - destruct t as [st sd sv ct nd o]. destruct st; split;
      (discriminate || contradiction).
  - destruct t as [st sd sv ct nd o]. destruct st, sv; split;
      (discriminate || contradiction).
  - rewrite deviceDiscovered_run.
    destruct (Status_eqb (m_status t) Connecting
              && negb (Z.eqb (Z.land (coreConfigurations info)
                                LowEnergyCoreConfiguration) 0)
              && String.eqb (name info) "Timeular ZEI");
      [ destruct (m_controller t) | ]; split;
      (discriminate || contradiction).
  - destruct t as [st sd sv ct nd o]. destruct ct; cbn; split;
      (discriminate || reflexivity).
  - destruct t as [st sd sv ct nd o]. destruct ct; cbn; split;
      (discriminate || reflexivity).
  - destruct t as [st sd sv ct nd o]. destruct st, sv; split;
      (discriminate || contradiction).
  - unfold addLowEnergyService.
    destruct (N.eqb uuid zeiOrientationService); split;
      (discriminate || contradiction).
  - destruct t as [st sd sv ct nd o].
    destruct sd, sv, ct, created; cbn; split;
      try discriminate; try (intros [? ?]; discriminate); auto.
  - destruct newState;
      try (split; [ discriminate | intros [? _]; discriminate ]).
    destruct (m_service t) as [s|] eqn:Hs.
    + destruct (serviceStateChanged_some s t Hs) as (t' & tr & Hrun).
      rewrite Hrun. split; [ discriminate | intros [_ ?]; discriminate ].
    + unfold serviceStateChanged. run_slot. rewrite Hs.
      split; [ auto | reflexivity ].
  - destruct (N.eqb (QLowEnergyCharacteristic_uuid c)
                zeiOrientationCharacteristic) eqn:Hc.
    + apply N.eqb_eq in Hc.
      destruct (constData_at_0 value) as (data & Hdata & Hrange).
      destruct (deviceDataChanged_run c value t data Hc Hdata Hrange)
        as (o & _ & Hrun).
      rewrite Hrun. split; [ discriminate | contradiction ].
    + unfold deviceDataChanged. rewrite Hc.
      split; [ discriminate | contradiction ].
  - unfold confirmedDescriptorWrite. run_slot.
    destruct (QLowEnergyDescriptor_isValid d
              && QLowEnergyDescriptor_eqb d (m_notificationDesc t)
              && QByteArray_eqb value fromHex_0000) eqn:E.
    + apply andb_true_iff in E. destruct E as [E Hv].
      apply andb_true_iff in E. destruct E as [Hvalid Heq].
      apply QLowEnergyDescriptor_eqb_eq in Heq.
      apply QByteArray_eqb_eq in Hv.
      assert (Hd : d <> None) by (intros ->; discriminate Hvalid).
      unfold on_controller, delete_m_service. run_slot.
      destruct (m_controller t), (m_service t); split;
        try discriminate; try (intros (_ & _ & _ & ?); discriminate);
        intros _; repeat split; assumption.
    + split; [ discriminate | ].
      intros (Hd & Heq & Hv & _). exfalso.
      assert (Hcond : QLowEnergyDescriptor_isValid d
                      && QLowEnergyDescriptor_eqb d (m_notificationDesc t)
                      && QByteArray_eqb value fromHex_0000 = true).
      { rewrite !andb_true_iff. repeat split.
        - destruct d; [ reflexivity | congruence ].
        - apply QLowEnergyDescriptor_eqb_eq. exact Heq.
        - apply QByteArray_eqb_eq. exact Hv. }
      congruence.
Qed.
